(** * JSON Schema generator for transcoded Protocol Buffer services

    A shallow embedding of the [generator] package (protoc-gen-jsonschema):
    document naming, the type mapper, the oneof expander and the message
    schema builder, followed by the properties established about them.

    Go strings are byte sequences; they are modelled by [string], whose
    characters are the bytes.  [len] is [String.length], [s[n:]] is
    [sliceFrom n s], and [a <= b] on strings is the bytewise [String.leb]. *)

From Stdlib Require Import Strings.String Strings.Ascii Lists.List Bool.Bool.
From Stdlib Require Import Arith.PeanoNat micromega.Lia ZArith.ZArith Floats.SpecFloat.
Import ListNotations.

Set Warnings "-register-all".

Local Open Scope list_scope.
Local Open Scope string_scope.
Local Open Scope nat_scope.

(** ** Byte strings: the parts of Go's [strings], [unicode/utf8] and [fmt]
  the generator relies on *)

Module strings.

(** [s[n:]] for [n <= len(s)]. *)
Fixpoint sliceFrom (n : nat) (s : string) : string :=
  match n, s with
  | 0, _ => s
  | S k, String _ t => sliceFrom k t
  | S _, EmptyString => EmptyString
  end.

(** [s[0:1]] and [s[1:]] of a non-empty string. *)
Definition uncons (s : string) : option (ascii * string) :=
  match s with
  | EmptyString => None
  | String c t => Some (c, t)
  end.

(** [strings.Replace(s, old, new, -1)] for one-byte [old] and [new]. *)
Fixpoint ReplaceByte (old new : ascii) (s : string) : string :=
  match s with
  | EmptyString => EmptyString
  | String c t =>
      String (if Ascii.eqb c old then new else c) (ReplaceByte old new t)
  end.

(** [strings.Replace(s, old, "", -1)] for a one-byte [old]. *)
Fixpoint RemoveByte (old : ascii) (s : string) : string :=
  match s with
  | EmptyString => EmptyString
  | String c t =>
      if Ascii.eqb c old then RemoveByte old t else String c (RemoveByte old t)
  end.

Fixpoint contains (c : ascii) (s : string) : bool :=
  match s with
  | EmptyString => false
  | String d t => Ascii.eqb d c || contains c t
  end.

Fixpoint rev (s : string) : string :=
  match s with
  | EmptyString => EmptyString
  | String c t => rev t ++ String c EmptyString
  end.

Definition isLower (c : ascii) : bool :=
  let n := nat_of_ascii c in (97 <=? n) && (n <=? 122).

Definition isUpper (c : ascii) : bool :=
  let n := nat_of_ascii c in (65 <=? n) && (n <=? 90).

Definition isASCII (c : ascii) : bool := nat_of_ascii c <? 128.

(** U+FFFD, which [strings.Map] writes for a byte that is not valid UTF-8. *)
Definition runeError : string :=
  String (ascii_of_nat 239) (String (ascii_of_nat 191)
    (String (ascii_of_nat 189) EmptyString)).

(** [strings.ToUpper] of a one-byte string. *)
Definition ToUpper1 (c : ascii) : string :=
  if isASCII c then
    String (if isLower c then ascii_of_nat (nat_of_ascii c - 32) else c) EmptyString
  else runeError.

(** [strings.ToLower] of a one-byte string. *)
Definition ToLower1 (c : ascii) : string :=
  if isASCII c then
    String (if isUpper c then ascii_of_nat (nat_of_ascii c + 32) else c) EmptyString
  else runeError.

(** *** [strings.TrimSpace] *)

(** The six ASCII white-space bytes: tab, line feed, vertical tab, form
    feed, carriage return and space. *)
Definition asciiSpace (c : ascii) : bool :=
  let n := nat_of_ascii c in ((9 <=? n) && (n <=? 13)) || (n =? 32).

(** Two-byte encodings of white space: U+0085 and U+00A0. *)
Definition space2 (a b : ascii) : bool :=
  (nat_of_ascii a =? 194) && ((nat_of_ascii b =? 133) || (nat_of_ascii b =? 160)).

(** Three-byte encodings of white space: U+1680, U+2000..U+200A, U+2028,
    U+2029, U+202F, U+205F and U+3000. *)
Definition space3 (a b c : ascii) : bool :=
  let x := nat_of_ascii a in
  let y := nat_of_ascii b in
  let z := nat_of_ascii c in
  ((x =? 225) && (y =? 154) && (z =? 128))
  || ((x =? 226) && (y =? 128)
      && (((128 <=? z) && (z <=? 138)) || (z =? 168) || (z =? 169) || (z =? 175)))
  || ((x =? 226) && (y =? 129) && (z =? 159))
  || ((x =? 227) && (y =? 128) && (z =? 128)).

(** Drop leading white space.  [mirror] reads the multi-byte encodings
    backwards, for use on a reversed string. *)
Fixpoint trimLeading (mirror : bool) (s : string) : string :=
  match s with
  | EmptyString => EmptyString
  | String a t1 =>
      if asciiSpace a then trimLeading mirror t1
      else
        match t1 with
        | EmptyString => s
        | String b t2 =>
            if (if mirror then space2 b a else space2 a b)
            then trimLeading mirror t2
            else
              match t2 with
              | EmptyString => s
              | String c t3 =>
                  if (if mirror then space3 c b a else space3 a b c)
                  then trimLeading mirror t3
                  else s
              end
        end
  end.

Definition TrimSpace (s : string) : string :=
  rev (trimLeading true (rev (trimLeading false s))).

End strings.

(** ** The regular expressions of the generator *)

Module regexp.

Fixpoint hasPrefix (p s : string) : option string :=
  match p, s with
  | EmptyString, _ => Some s
  | String a p', String b s' => if Ascii.eqb a b then hasPrefix p' s' else None
  | String _ _, EmptyString => None
  end.

Definition newline : ascii := ascii_of_nat 10.
Definition slash : ascii := ascii_of_nat 47.

(** *** [\(-- .* --\)] *)

(** The greedy tail [.* --\)] matched at the start of [s]: the number of
    bytes the longest match consumes.  [.] matches anything but a line
    feed. *)
Fixpoint linterTail (s : string) : option nat :=
  match s with
  | EmptyString => None
  | String c t =>
      let here := match hasPrefix " --)" s with
                  | Some _ => Some 4
                  | None => None
                  end in
      if Ascii.eqb c newline then here
      else match linterTail t with
           | Some n => Some (S n)
           | None => here
           end
  end.

(** [linterRulePattern.ReplaceAllString(s, "")]: every leftmost match is
    deleted and the search resumes behind it.  [skip] counts the bytes of
    the current match still to be dropped. *)
Fixpoint removeLinterRules (skip : nat) (s : string) : string :=
  match s with
  | EmptyString => EmptyString
  | String c t =>
      match skip with
      | S k => removeLinterRules k t
      | 0 =>
          match hasPrefix "(-- " s with
          | Some rest =>
              match linterTail rest with
              | Some n => removeLinterRules (3 + n) t
              | None => String c (removeLinterRules 0 t)
              end
          | None => String c (removeLinterRules 0 t)
          end
      end
  end.

(** *** [https*://json-schema.org/draft[/-]([^/]+)/schema] *)

(** [s*] *)
Fixpoint skipS (s : string) : string :=
  match s with
  | String "s"%char t => skipS t
  | _ => s
  end.

(** Width in bytes of the rune at the start of a non-empty string
    ([utf8.DecodeRuneInString]); a byte that starts no valid encoding has
    width 1. *)
Definition isCont (c : ascii) : bool :=
  let n := nat_of_ascii c in (128 <=? n) && (n <=? 191).

Definition runeWidth (s : string) : nat :=
  match s with
  | EmptyString => 0
  | String a t =>
      let x := nat_of_ascii a in
      if x <? 194 then 1
      else
        match t with
        | EmptyString => 1
        | String b t2 =>
            let y := nat_of_ascii b in
            if x <=? 223 then (if isCont b then 2 else 1)
            else
              let second :=
                if x =? 224 then (160 <=? y) && (y <=? 191)
                else if x =? 237 then (128 <=? y) && (y <=? 159)
                else if x =? 240 then (144 <=? y) && (y <=? 191)
                else if x =? 244 then (128 <=? y) && (y <=? 143)
                else if x <=? 244 then isCont b
                else false in
              if negb second then 1
              else
                match t2 with
                | EmptyString => 1
                | String c t3 =>
                    if negb (isCont c) then 1
                    else if x <=? 239 then 3
                    else
                      match t3 with
                      | EmptyString => 1
                      | String d _ => if isCont d then 4 else 1
                      end
                end
        end
  end.

(** [.] : one rune other than a line feed. *)
Definition anyChar (s : string) : option string :=
  match s with
  | EmptyString => None
  | String c _ =>
      if Ascii.eqb c newline then None
      else Some (strings.sliceFrom (runeWidth s) s)
  end.

(** [([^/]+)] : the longest non-empty run of bytes other than [/], and
    what follows it. *)
Fixpoint notSlashes (s : string) : string * string :=
  match s with
  | EmptyString => (EmptyString, EmptyString)
  | String c t =>
      if Ascii.eqb c slash then (EmptyString, s)
      else let '(run, rest) := notSlashes t in (String c run, rest)
  end.

Definition bindO {A B} (o : option A) (f : A -> option B) : option B :=
  match o with
  | Some a => f a
  | None => None
  end.

(** The pattern matched at the start of [s]: the captured group. *)
Definition schemaVersionAt (s : string) : option string :=
  bindO (hasPrefix "http" s) (fun s1 =>
  bindO (hasPrefix "://json-schema" (skipS s1)) (fun s2 =>
  bindO (anyChar s2) (fun s3 =>
  bindO (hasPrefix "org/draft" s3) (fun s4 =>
  bindO (match s4 with
         | String c t =>
             if Ascii.eqb c slash || Ascii.eqb c "-"%char then Some t else None
         | EmptyString => None
         end) (fun s5 =>
  let '(group, s6) := notSlashes s5 in
  match group with
  | EmptyString => None
  | _ => bindO (hasPrefix "/schema" s6) (fun _ => Some group)
  end))))).

(** [reSchemaVersion.FindStringSubmatch]: the leftmost match, as the list
    of the whole match and the group; the whole match is not needed by the
    caller and is left empty here. *)
Fixpoint FindSchemaVersionSubmatch (s : string) : list string :=
  match schemaVersionAt s with
  | Some group => [EmptyString; group]
  | None =>
      match s with
      | EmptyString => []
      | String _ t => FindSchemaVersionSubmatch t
      end
  end.

End regexp.


(** ** Descriptors ([protoreflect]) *)

Module protoreflect.

(** A message descriptor, by its place in the file: declared at the top
    level of a file of package [pkg], or nested in another message. *)
Inductive MessageDescriptor : Type :=
| TopLevel (pkg : string) (name : string)
| Nested (parent : MessageDescriptor) (name : string).

(** [desc.Name()] *)
Definition Name (desc : MessageDescriptor) : string :=
  match desc with
  | TopLevel _ name => name
  | Nested _ name => name
  end.

(** [desc.ParentFile().Package()] *)
Fixpoint Package (desc : MessageDescriptor) : string :=
  match desc with
  | TopLevel pkg _ => pkg
  | Nested parent _ => Package parent
  end.

(** [FullName.Append]: the parent's full name, a dot and the name; the
    name alone under an empty parent name. *)
Definition Append (n : string) (name : string) : string :=
  match n with
  | EmptyString => name
  | _ => n ++ "." ++ name
  end.

(** [desc.FullName()] *)
Fixpoint FullName (desc : MessageDescriptor) : string :=
  match desc with
  | TopLevel pkg name => Append pkg name
  | Nested parent name => Append (FullName parent) name
  end.

(** [desc.Parent().FullName()]; the full name of a file is its package. *)
Definition ParentFullName (desc : MessageDescriptor) : string :=
  match desc with
  | TopLevel pkg _ => pkg
  | Nested parent _ => FullName parent
  end.

(** The full name without the package: the names of the enclosing messages
    and of the message itself, joined by dots. *)
Fixpoint relativeName (desc : MessageDescriptor) : string :=
  match desc with
  | TopLevel _ name => name
  | Nested parent name => relativeName parent ++ "." ++ name
  end.


(** The kind of a field, together with what [Enum()] (the names of the
    declared values, in order) and [Message()] return for it. *)
Inductive Kind : Type :=
| BoolKind
| EnumKind (values : list string)
| Int32Kind | Sint32Kind | Uint32Kind
| Int64Kind | Sint64Kind | Uint64Kind
| Sfixed32Kind | Fixed32Kind
| FloatKind
| Sfixed64Kind | Fixed64Kind
| DoubleKind
| StringKind
| BytesKind
| MessageKind (message : MessageDescriptor)
| GroupKind (message : MessageDescriptor).

(** [kind.String()] *)
Definition Kind_String (kind : Kind) : string :=
  match kind with
  | BoolKind => "bool"
  | EnumKind _ => "enum"
  | Int32Kind => "int32"
  | Sint32Kind => "sint32"
  | Uint32Kind => "uint32"
  | Int64Kind => "int64"
  | Sint64Kind => "sint64"
  | Uint64Kind => "uint64"
  | Sfixed32Kind => "sfixed32"
  | Fixed32Kind => "fixed32"
  | FloatKind => "float"
  | Sfixed64Kind => "sfixed64"
  | Fixed64Kind => "fixed64"
  | DoubleKind => "double"
  | StringKind => "string"
  | BytesKind => "bytes"
  | MessageKind _ => "message"
  | GroupKind _ => "group"
  end.

End protoreflect.

(** [google.api.field_behavior] *)
Module annotations.

Inductive FieldBehavior : Type :=
| FieldBehavior_FIELD_BEHAVIOR_UNSPECIFIED
| FieldBehavior_OPTIONAL
| FieldBehavior_REQUIRED
| FieldBehavior_OUTPUT_ONLY
| FieldBehavior_INPUT_ONLY
| FieldBehavior_IMMUTABLE
| FieldBehavior_UNORDERED_LIST
| FieldBehavior_NON_EMPTY_DEFAULT
| FieldBehavior_IDENTIFIER.

Definition is_OUTPUT_ONLY (v : FieldBehavior) : bool :=
  match v with FieldBehavior_OUTPUT_ONLY => true | _ => false end.

Definition is_INPUT_ONLY (v : FieldBehavior) : bool :=
  match v with FieldBehavior_INPUT_ONLY => true | _ => false end.

End annotations.

Module protoreflect_field.

Import protoreflect annotations.

(** A field descriptor.  [MapValue] is [Some] exactly for a map field
    ([IsMap()]) and is then the value field of its entry; [Behavior] is
    the [google.api.field_behavior] extension of [Options()]. *)
Inductive FieldDescriptor : Type :=
  MkFieldDescriptor {
      FieldName : string;
      JSONName : string;
      FieldKind : Kind;
      IsList : bool;
      MapValue : option FieldDescriptor;
      Behavior : list FieldBehavior
    }.

End protoreflect_field.

(** ** The plugin's view of a file ([protogen]) *)

Module protogen.

Import protoreflect protoreflect_field.

(** [InOneof] is [field.Oneof != nil]; [FieldLeading] is
    [field.Comments.Leading]. *)
Record Field : Type :=
  MkField {
      FieldDesc : FieldDescriptor;
      FieldGoName : string;
      FieldLeading : string;
      InOneof : bool
    }.

(** [OneofName] is [oneof.Desc.Name()]. *)
Record Oneof : Type :=
  MkOneof {
      OneofName : string;
      OneofGoName : string;
      OneofFields : list Field
    }.

(** [IsMapEntry] is [message.Desc.IsMapEntry()]; [Leading] is
    [message.Comments.Leading]. *)
Inductive Message : Type :=
  MkMessage {
      Desc : MessageDescriptor;
      IsMapEntry : bool;
      Leading : string;
      Messages : list Message;
      Oneofs : list Oneof;
      Fields : list Field
    }.

(** A file of the request: [Generate] tells whether output is wanted for
    it; [FileMessages] is [file.Messages], its top-level messages. *)
Record File : Type :=
  MkFile {
      Generate : bool;
      FileMessages : list Message
    }.

End protogen.

(** ** Schema nodes ([jsonschema]) *)

Module jsonschema.

Inductive SchemaEnumValue : Type :=
| EnumString (s : string)
| EnumBool (b : bool).

Inductive StringOrStringArray : Type :=
| TypeString (s : string)
| TypeStringArray (a : list string).

(** [ArrayValue] holds YAML nodes; the generator only ever stores the
    empty array.  [NullTag] is the JSON null default. *)
Inductive DefaultValue : Type :=
| StringValue (s : string)
| Float64Value (f : spec_float)
| Int64Value (n : Z)
| BooleanValue (b : bool)
| ArrayValue (n : list unit)
| NullTag.

(** The keywords of a schema node the generator writes.  [SchemaOrSchemaArray]
    and [SchemaOrBoolean] wrap a schema pointer that may be nil. *)
Inductive Schema : Type :=
  MkSchema {
      Schema_ : option string;
      ID : option string;
      Type_ : option StringOrStringArray;
      Format : option string;
      Ref : option string;
      Properties : option (list NamedSchema);
      Items : option SchemaOrSchemaArray;
      OneOf : option (list Schema);
      Enumeration : option (list SchemaEnumValue);
      Default : option DefaultValue;
      Title : option string;
      Description : option string;
      ReadOnly : option bool;
      WriteOnly : option bool;
      AdditionalProperties : option SchemaOrBoolean;
      Definitions : option (list NamedSchema)
    }
with NamedSchema : Type :=
  MkNamedSchema {
      Name : string;
      Value : Schema
    }
with SchemaOrSchemaArray : Type :=
  MkSchemaOrSchemaArray { ItemsSchema : option Schema }
with SchemaOrBoolean : Type :=
  MkSchemaOrBoolean { AdditionalSchema : option Schema }.

(** [&jsonschema.Schema{}] *)
Definition empty : Schema :=
  MkSchema None None None None None None None None
           None None None None None None None None.

(** Assignment to one keyword of a node: [s.F = &v]. *)
Definition set_Schema (v : string) (s : Schema) : Schema :=
  MkSchema (Some v) (ID s) (Type_ s) (Format s) (Ref s) (Properties s) (Items s) (OneOf s) (Enumeration s) (Default s) (Title s) (Description s) (ReadOnly s) (WriteOnly s) (AdditionalProperties s) (Definitions s).

Definition set_ID (v : string) (s : Schema) : Schema :=
  MkSchema (Schema_ s) (Some v) (Type_ s) (Format s) (Ref s) (Properties s) (Items s) (OneOf s) (Enumeration s) (Default s) (Title s) (Description s) (ReadOnly s) (WriteOnly s) (AdditionalProperties s) (Definitions s).

Definition set_Type (v : StringOrStringArray) (s : Schema) : Schema :=
  MkSchema (Schema_ s) (ID s) (Some v) (Format s) (Ref s) (Properties s) (Items s) (OneOf s) (Enumeration s) (Default s) (Title s) (Description s) (ReadOnly s) (WriteOnly s) (AdditionalProperties s) (Definitions s).

Definition set_Format (v : string) (s : Schema) : Schema :=
  MkSchema (Schema_ s) (ID s) (Type_ s) (Some v) (Ref s) (Properties s) (Items s) (OneOf s) (Enumeration s) (Default s) (Title s) (Description s) (ReadOnly s) (WriteOnly s) (AdditionalProperties s) (Definitions s).

Definition set_Ref (v : string) (s : Schema) : Schema :=
  MkSchema (Schema_ s) (ID s) (Type_ s) (Format s) (Some v) (Properties s) (Items s) (OneOf s) (Enumeration s) (Default s) (Title s) (Description s) (ReadOnly s) (WriteOnly s) (AdditionalProperties s) (Definitions s).

Definition set_Properties (v : list NamedSchema) (s : Schema) : Schema :=
  MkSchema (Schema_ s) (ID s) (Type_ s) (Format s) (Ref s) (Some v) (Items s) (OneOf s) (Enumeration s) (Default s) (Title s) (Description s) (ReadOnly s) (WriteOnly s) (AdditionalProperties s) (Definitions s).

Definition set_Items (v : SchemaOrSchemaArray) (s : Schema) : Schema :=
  MkSchema (Schema_ s) (ID s) (Type_ s) (Format s) (Ref s) (Properties s) (Some v) (OneOf s) (Enumeration s) (Default s) (Title s) (Description s) (ReadOnly s) (WriteOnly s) (AdditionalProperties s) (Definitions s).

Definition set_OneOf (v : list Schema) (s : Schema) : Schema :=
  MkSchema (Schema_ s) (ID s) (Type_ s) (Format s) (Ref s) (Properties s) (Items s) (Some v) (Enumeration s) (Default s) (Title s) (Description s) (ReadOnly s) (WriteOnly s) (AdditionalProperties s) (Definitions s).

Definition set_Enumeration (v : list SchemaEnumValue) (s : Schema) : Schema :=
  MkSchema (Schema_ s) (ID s) (Type_ s) (Format s) (Ref s) (Properties s) (Items s) (OneOf s) (Some v) (Default s) (Title s) (Description s) (ReadOnly s) (WriteOnly s) (AdditionalProperties s) (Definitions s).

Definition set_Default (v : DefaultValue) (s : Schema) : Schema :=
  MkSchema (Schema_ s) (ID s) (Type_ s) (Format s) (Ref s) (Properties s) (Items s) (OneOf s) (Enumeration s) (Some v) (Title s) (Description s) (ReadOnly s) (WriteOnly s) (AdditionalProperties s) (Definitions s).

Definition set_Title (v : string) (s : Schema) : Schema :=
  MkSchema (Schema_ s) (ID s) (Type_ s) (Format s) (Ref s) (Properties s) (Items s) (OneOf s) (Enumeration s) (Default s) (Some v) (Description s) (ReadOnly s) (WriteOnly s) (AdditionalProperties s) (Definitions s).

Definition set_Description (v : string) (s : Schema) : Schema :=
  MkSchema (Schema_ s) (ID s) (Type_ s) (Format s) (Ref s) (Properties s) (Items s) (OneOf s) (Enumeration s) (Default s) (Title s) (Some v) (ReadOnly s) (WriteOnly s) (AdditionalProperties s) (Definitions s).

Definition set_ReadOnly (v : bool) (s : Schema) : Schema :=
  MkSchema (Schema_ s) (ID s) (Type_ s) (Format s) (Ref s) (Properties s) (Items s) (OneOf s) (Enumeration s) (Default s) (Title s) (Description s) (Some v) (WriteOnly s) (AdditionalProperties s) (Definitions s).

Definition set_WriteOnly (v : bool) (s : Schema) : Schema :=
  MkSchema (Schema_ s) (ID s) (Type_ s) (Format s) (Ref s) (Properties s) (Items s) (OneOf s) (Enumeration s) (Default s) (Title s) (Description s) (ReadOnly s) (Some v) (AdditionalProperties s) (Definitions s).

Definition set_AdditionalProperties (v : SchemaOrBoolean) (s : Schema) : Schema :=
  MkSchema (Schema_ s) (ID s) (Type_ s) (Format s) (Ref s) (Properties s) (Items s) (OneOf s) (Enumeration s) (Default s) (Title s) (Description s) (ReadOnly s) (WriteOnly s) (Some v) (Definitions s).

Definition set_Definitions (v : list NamedSchema) (s : Schema) : Schema :=
  MkSchema (Schema_ s) (ID s) (Type_ s) (Format s) (Ref s) (Properties s) (Items s) (OneOf s) (Enumeration s) (Default s) (Title s) (Description s) (ReadOnly s) (WriteOnly s) (AdditionalProperties s) (Some v).

Definition set_Value (v : Schema) (n : NamedSchema) : NamedSchema :=
  MkNamedSchema (Name n) v.

End jsonschema.

(** ** Diagnostics and run-time panics

    [log.Printf] appends a line to the log; dereferencing a nil pointer
    aborts the run.  A computation either finishes with a value and the
    lines it logged, or panics. *)

Inductive Outcome (A : Type) : Type :=
| Done (a : A) (log : list string)
| Panic.

Arguments Done {A} a log.
Arguments Panic {A}.

Definition ret {A} (a : A) : Outcome A := Done a [].

Definition bind {A B} (m : Outcome A) (f : A -> Outcome B) : Outcome B :=
  match m with
  | Done a l =>
      match f a with
      | Done b l' => Done b (l ++ l')
      | Panic => Panic
      end
  | Panic => Panic
  end.

Notation "x <- m ;; k" := (bind m (fun x => k))
  (at level 61, m at next level, right associativity).

Definition logPrintf (line : string) : Outcome unit := Done tt [line].

(** [*p] for a pointer [p] that may be nil. *)
Definition deref {A} (p : option A) : Outcome A :=
  match p with
  | Some a => ret a
  | None => Panic
  end.

(** ** The generator *)

Module generator.

Import protoreflect annotations protoreflect_field protogen jsonschema.

Definition typeString := "string".
Definition typeNumber := "number".
Definition typeInteger := "integer".
Definition typeBoolean := "boolean".
Definition typeObject := "object".
Definition typeArray := "array".
Definition typeNull := "null".

Definition formatDate := "date".
Definition formatDateTime := "date-time".
Definition formatEnum := "enum".
Definition formatBytes := "bytes".

Definition emptyString := "".
Definition emptyInt64 : Z := 0%Z.
Definition emptyFloat64 : spec_float := S754_zero false.
Definition emptyBoolean := false.
Definition emptyArray : list unit := [].

(** The three options read through their pointers are set by the flag
    parser; [EnumType] is tested against nil. *)
Record Configuration : Type :=
  MkConfiguration {
      BaseURL : string;
      Version : string;
      Naming : string;
      EnumType : option string
    }.

(** The generator; the plugin handle and the compiled linter pattern
    ([regexp.removeLinterRules]) carry no state. *)
Record JSONSchemaGenerator : Type :=
  MkJSONSchemaGenerator { conf : Configuration }.

Definition NewJSONSchemaGenerator (conf : Configuration) : JSONSchemaGenerator :=
  let baseURL := BaseURL conf in
  let baseURL :=
    match strings.rev baseURL with
    | String last _ =>
        if negb (Ascii.eqb last regexp.slash) then baseURL ++ "/" else baseURL
    | EmptyString => baseURL
    end in
  MkJSONSchemaGenerator
    (MkConfiguration baseURL (Version conf) (Naming conf) (EnumType conf)).

(** [filterCommentString] removes line breaks and linter rules from
    comments. *)
Definition filterCommentString (g : JSONSchemaGenerator) (c : string)
    (removeNewLines : bool) : string :=
  let comment := c in
  let comment :=
    if removeNewLines then strings.RemoveByte regexp.newline comment else comment in
  let comment := regexp.removeLinterRules 0 comment in
  strings.TrimSpace comment.

Definition formatMessageNameString (g : JSONSchemaGenerator) (name : string) : string :=
  if String.eqb (Naming (conf g)) "proto" then name
  else
    match name with
    | String first (String _ _ as rest) => strings.ToUpper1 first ++ rest
    | String first EmptyString => strings.ToLower1 first
    | EmptyString => name
    end.

Definition formatOneofFieldName (g : JSONSchemaGenerator) (oneof : Oneof) : string :=
  if String.eqb (Naming (conf g)) "proto" then OneofName oneof
  else
    let name := OneofGoName oneof in
    match name with
    | String first (String _ _ as rest) => strings.ToLower1 first ++ rest
    | String first EmptyString => strings.ToLower1 first
    | EmptyString => name
    end.

Definition formatFieldName (g : JSONSchemaGenerator) (field : Field) : string :=
  if String.eqb (Naming (conf g)) "proto" then FieldName (FieldDesc field)
  else JSONName (FieldDesc field).

(** [messageDefinitionName] builds the full schema definition name of a
    message. *)
Definition messageDefinitionName (desc : MessageDescriptor) : string :=
  let name := protoreflect.Name desc in
  let pkg := Package desc in
  let parentName := ParentFullName desc in
  let name :=
    if String.length pkg <? String.length parentName then
      let parentName := strings.sliceFrom (String.length pkg + 1) parentName in
      parentName ++ "." ++ name
    else name in
  strings.ReplaceByte "." "_" name.

Definition schemaOrReferenceForType (g : JSONSchemaGenerator)
    (desc : MessageDescriptor) : option Schema :=
  let typeName := "." ++ Package desc ++ "." ++ protoreflect.Name desc in
  if String.eqb typeName ".google.protobuf.Timestamp" then
    Some (set_Format formatDateTime (set_Type (TypeString typeString) empty))
  else if String.eqb typeName ".google.type.Date" then
    Some (set_Format formatDate (set_Type (TypeString typeString) empty))
  else if String.eqb typeName ".google.type.DateTime" then
    Some (set_Format formatDateTime (set_Type (TypeString typeString) empty))
  else if String.eqb typeName ".google.protobuf.Struct" then
    Some (set_Type (TypeString typeObject) empty)
  else if String.eqb typeName ".google.protobuf.Value" then
    Some (set_Type
            (TypeStringArray
               [typeString; typeNumber; typeInteger; typeBoolean; typeObject; typeArray])
            empty)
  else if String.eqb typeName ".google.protobuf.Empty" then
    None
  else
    let typeName := messageDefinitionName desc in
    let ref := formatMessageNameString g typeName ++ ".json" in
    Some (set_Ref ref empty).

(** What the [switch] on the kind of a field leaves behind: an early
    [return], or the value of [kindSchema] (nil when no case set it). *)
Inductive KindSwitch : Type :=
| Return (result : option Schema)
| Fallthrough (kindSchema : option Schema).

Definition integerSchema (kind : Kind) : Schema :=
  let format := Kind_String kind in
  set_Default (Int64Value emptyInt64)
    (set_Format format (set_Type (TypeString typeInteger) empty)).

(** The loop over the declared values of an enum, from index [i] on. *)
Fixpoint enumValuesLoop (i : nat) (values : list string) (kindSchema : Schema)
  : Schema :=
  match values with
  | [] => kindSchema
  | name :: rest =>
      let enumeration :=
        match Enumeration kindSchema with
        | Some e => e
        | None => []
        end in
      let kindSchema := set_Enumeration (enumeration ++ [EnumString name]) kindSchema in
      let kindSchema :=
        if i =? 0 then set_Default (StringValue name) kindSchema else kindSchema in
      enumValuesLoop (S i) rest kindSchema
  end.

Definition enumSchema (g : JSONSchemaGenerator) (values : list string) : Schema :=
  let kindSchema := set_Format formatEnum empty in
  match EnumType (conf g) with
  | Some enumType =>
      if String.eqb enumType typeString then
        let kindSchema := set_Type (TypeString typeString) kindSchema in
        let kindSchema := set_Enumeration [] kindSchema in
        enumValuesLoop 0 values kindSchema
      else
        set_Default (Int64Value emptyInt64)
          (set_Type (TypeString typeInteger) kindSchema)
  | None =>
      set_Default (Int64Value emptyInt64)
        (set_Type (TypeString typeInteger) kindSchema)
  end.

Fixpoint schemaOrReferenceForField (g : JSONSchemaGenerator)
    (field : FieldDescriptor) (definitions : option (list NamedSchema))
    {struct field} : Outcome (option Schema) :=
  match field with
  | MkFieldDescriptor _ _ kind isList (Some mapValue) _ =>
      let typ := "object" in
      valueSchema <- schemaOrReferenceForField g mapValue definitions ;;
      ret (Some (set_AdditionalProperties (MkSchemaOrBoolean valueSchema)
                   (set_Type (TypeString typ) empty)))
  | MkFieldDescriptor _ _ kind isList None _ =>
      switch <-
        match kind with
        | MessageKind message =>
            match schemaOrReferenceForType g message with
            | None => ret (Return None)
            | Some kindSchema => ret (Fallthrough (Some kindSchema))
            end
        | StringKind =>
            ret (Fallthrough
                   (Some (set_Default (StringValue emptyString)
                            (set_Type (TypeString typeString) empty))))
        | Int32Kind | Sint32Kind | Uint32Kind
        | Int64Kind | Sint64Kind | Uint64Kind
        | Sfixed32Kind | Fixed32Kind | Sfixed64Kind | Fixed64Kind =>
            ret (Fallthrough (Some (integerSchema kind)))
        | EnumKind values =>
            ret (Fallthrough (Some (enumSchema g values)))
        | BoolKind =>
            ret (Fallthrough
                   (Some (set_Default (BooleanValue emptyBoolean)
                            (set_Type (TypeString typeBoolean) empty))))
        | FloatKind | DoubleKind =>
            let format := Kind_String kind in
            ret (Fallthrough
                   (Some (set_Default (Float64Value emptyFloat64)
                            (set_Format format (set_Type (TypeString typeNumber) empty)))))
        | BytesKind =>
            ret (Fallthrough
                   (Some (set_Default (StringValue emptyString)
                            (set_Format formatBytes
                               (set_Type (TypeString typeString) empty)))))
        | GroupKind message =>
            _ <- logPrintf ("(TODO) Unsupported field type: " ++ FullName message) ;;
            ret (Fallthrough None)
        end ;;
      match switch with
      | Return result => ret result
      | Fallthrough kindSchema =>
          if isList then
            let typ := "array" in
            ret (Some (set_Default (ArrayValue emptyArray)
                         (set_Items (MkSchemaOrSchemaArray kindSchema)
                            (set_Type (TypeString typ) empty))))
          else ret kindSchema
      end
  end.

Definition getSchemaVersion (schema : Schema) : Outcome string :=
  schemaSchema <- deref (Schema_ schema) ;;
  let matches := regexp.FindSchemaVersionSubmatch schemaSchema in
  match matches with
  | [_; version] => ret version
  | _ => ret ""
  end.

(** The loop over the behaviours of a field.  The extension always has the
    type [[]annotations.FieldBehavior], so the [default] case of the type
    switch is never taken. *)
Fixpoint applyFieldBehavior (v : list FieldBehavior) (fieldSchema : Schema) : Schema :=
  match v with
  | [] => fieldSchema
  | vv :: rest =>
      let t := true in
      let fieldSchema :=
        if is_OUTPUT_ONLY vv then set_ReadOnly t fieldSchema
        else if is_INPUT_ONLY vv then set_WriteOnly t fieldSchema
        else fieldSchema in
      applyFieldBehavior rest fieldSchema
  end.

Definition namedSchemaForField (g : JSONSchemaGenerator) (field : Field)
    (schema : NamedSchema) (isValueProp : bool) : Outcome (option NamedSchema) :=
  fieldSchema <- schemaOrReferenceForField g (FieldDesc field)
                   (Definitions (Value schema)) ;;
  match fieldSchema with
  | None => ret None
  | Some fieldSchema =>
      version <- getSchemaVersion (Value schema) ;;
      let fieldSchema :=
        if String.leb "07" version then
          applyFieldBehavior (Behavior (FieldDesc field)) fieldSchema
        else fieldSchema in
      let fieldName := "value" in
      let fieldName := if negb isValueProp then formatFieldName g field else fieldName in
      let fieldSchema :=
        match Ref fieldSchema with
        | None => set_Title fieldName fieldSchema
        | Some _ => fieldSchema
        end in
      let description := filterCommentString g (FieldLeading field) true in
      let fieldSchema :=
        if negb (String.eqb description "") then set_Description description fieldSchema
        else fieldSchema in
      ret (Some (MkNamedSchema fieldName fieldSchema))
  end.

Definition setupSchemaForMessage (g : JSONSchemaGenerator) (schemaName : string)
    (comments : string) : NamedSchema :=
  let typ := "object" in
  let id := BaseURL (conf g) ++ schemaName ++ ".json" in
  let schema :=
    MkNamedSchema schemaName
      (set_Properties []
         (set_Title schemaName
            (set_Type (TypeString typ)
               (set_ID id
                  (set_Schema (Version (conf g)) empty))))) in
  let description := filterCommentString g comments true in
  if negb (String.eqb description "") then
    set_Value (set_Description description (Value schema)) schema
  else schema.

Definition buildKindProperty (g : JSONSchemaGenerator) (propertyValue : string)
  : NamedSchema :=
  let kind := "kind" in
  MkNamedSchema kind
    (set_Enumeration ([] ++ [EnumString propertyValue])
       (set_Default (StringValue propertyValue)
          (set_Type (TypeString typeString)
             (set_Title kind empty)))).

(** [*p = append( *p, more...)] *)
Definition appendTo {A} (p : option (list A)) (more : list A) : Outcome (list A) :=
  l <- deref p ;;
  ret (l ++ more)%list.

(** The body of the loop over the members of one oneof group.  The state
    is the owning document and the union node under construction. *)
Definition addOneofField (g : JSONSchemaGenerator) (state : NamedSchema * Schema)
    (fieldProto : Field) : Outcome (NamedSchema * Schema) :=
  let '(schema, oneOfSchema) := state in
  let ref := Name schema ++ "_" ++ FieldGoName fieldProto in
  let oneofFieldSchema :=
    MkNamedSchema ref
      (set_Properties []
         (set_Title ref
            (set_Type (TypeString typeObject) empty))) in
  let kindProperty := buildKindProperty g (FieldName (FieldDesc fieldProto)) in
  actualProperty <- namedSchemaForField g fieldProto schema true ;;
  match actualProperty with
  | None => ret (schema, oneOfSchema)
  | Some actualProperty =>
      properties <- appendTo (Properties (Value oneofFieldSchema))
                      [kindProperty; actualProperty] ;;
      let oneofFieldSchema :=
        set_Value (set_Properties properties (Value oneofFieldSchema)) oneofFieldSchema in
      let schema :=
        match Definitions (Value schema) with
        | None => set_Value (set_Definitions [] (Value schema)) schema
        | Some _ => schema
        end in
      definitions <- appendTo (Definitions (Value schema)) [oneofFieldSchema] ;;
      let schema := set_Value (set_Definitions definitions (Value schema)) schema in
      let definitionsRef := "#/definitions/" ++ ref in
      alternatives <- appendTo (OneOf oneOfSchema) [set_Ref definitionsRef empty] ;;
      ret (schema, set_OneOf alternatives oneOfSchema)
  end.

(** [for _, x := range xs { state = body(state, x) }] *)
Section ForRange.

Context {S X : Type}.
Variable body : S -> X -> Outcome S.

Fixpoint forRange (xs : list X) (state : S) : Outcome S :=
  match xs with
  | [] => ret state
  | x :: rest =>
      state <- body state x ;;
      forRange rest state
  end.

End ForRange.

(** The body of the loop over the oneof groups of a message. *)
Definition addOneof (g : JSONSchemaGenerator) (schema : NamedSchema)
    (oneOfProto : Oneof) : Outcome NamedSchema :=
  let oneOfSchema := set_Default NullTag (set_OneOf [] empty) in
  alternatives <- appendTo (OneOf oneOfSchema)
                    [set_Type (TypeString typeNull) empty] ;;
  let oneOfSchema := set_OneOf alternatives oneOfSchema in
  state <- forRange (addOneofField g) (OneofFields oneOfProto) (schema, oneOfSchema) ;;
  let '(schema, oneOfSchema) := state in
  properties <- appendTo (Properties (Value schema))
                  [MkNamedSchema (formatOneofFieldName g oneOfProto) oneOfSchema] ;;
  ret (set_Value (set_Properties properties (Value schema)) schema).

(** The document is updated in place by the source; here the updated
    document is returned.  A nil [oneofs] and an empty one both leave the
    document as it is. *)
Definition addOneofFieldsToSchema (g : JSONSchemaGenerator) (oneofs : list Oneof)
    (schema : NamedSchema) : Outcome NamedSchema :=
  forRange (addOneof g) oneofs schema.

(** The body of the loop over the fields of a message. *)
Definition addField (g : JSONSchemaGenerator) (schema : NamedSchema) (field : Field)
  : Outcome NamedSchema :=
  if InOneof field then ret schema
  else
    namedSchema <- namedSchemaForField g field schema false ;;
    match namedSchema with
    | None => ret schema
    | Some namedSchema =>
        properties <- appendTo (Properties (Value schema)) [namedSchema] ;;
        ret (set_Value (set_Properties properties (Value schema)) schema)
    end.

(** The body of the loop of [buildSchemasFromMessages] for one message:
    [schemas] is the list built so far, and the call on the one-element
    list of a nested message is the call of this body on an empty list. *)
Fixpoint buildSchemaFromMessage (g : JSONSchemaGenerator)
    (schemas : list NamedSchema) (message : Message) {struct message}
  : Outcome (list NamedSchema) :=
  match message with
  | MkMessage desc isMapEntry leading messages oneofs fields =>
      let schemaName := messageDefinitionName desc in
      let schema := setupSchemaForMessage g schemaName leading in
      schemas <-
        forRange
          (fun schemas subMessage =>
             subSchemas <- buildSchemaFromMessage g [] subMessage ;;
             ret (schemas ++ subSchemas)%list)
          messages schemas ;;
      if isMapEntry then ret schemas
      else
        schema <- addOneofFieldsToSchema g oneofs schema ;;
        schema <- forRange (addField g) fields schema ;;
        ret (schemas ++ [schema])%list
  end.

(** [buildSchemasFromMessages] creates a schema for each message. *)
Definition buildSchemasFromMessages (g : JSONSchemaGenerator)
    (messages : list Message) : Outcome (list NamedSchema) :=
  forRange (buildSchemaFromMessage g) messages [].

(** A file handed back to the compiler: the name given to
    [NewGeneratedFile] and the bytes written to it. *)
Record GeneratedFile : Type :=
  MkGeneratedFile {
      filename : string;
      content : string
    }.

Section Run.

(** [schema.Value.JSONString()], the serializer of the [jsonschema]
    package; it may panic, as on a node whose items or additional
    properties hold a nil schema. *)
Variable JSONString : Schema -> Outcome string.

(** The body of the loop over the files of the request.  The file is
    registered with the plugin before its content is computed, and a panic
    of the serializer aborts the run. *)
Definition runFile (g : JSONSchemaGenerator) (generated : list GeneratedFile)
    (file : File) : Outcome (list GeneratedFile) :=
  if Generate file then
    schemas <- buildSchemasFromMessages g (FileMessages file) ;;
    forRange
      (fun generated schema =>
         let outputFile := (Name schema ++ ".json")%string in
         bytes <- JSONString (Value schema) ;;
         ret (generated ++ [MkGeneratedFile outputFile bytes])%list)
      schemas generated
  else ret generated.

(** [Run] runs the generator; the error it returns is always nil. *)
Definition Run (g : JSONSchemaGenerator) (files : list File)
  : Outcome (list GeneratedFile * option string) :=
  generated <- forRange (runFile g) files [] ;;
  ret (generated, None).

End Run.

End generator.

(** * Vocabulary of the properties *)

Import protoreflect annotations protoreflect_field protogen jsonschema generator.

Local Open Scope list_scope.

(** ** Document names *)



(** ** Field nodes *)

(** Induction on a field descriptor, through the value field of a map. *)
Fixpoint FieldDescriptor_induction (P : FieldDescriptor -> Prop)
    (plain : forall n j k l b, P (MkFieldDescriptor n j k l None b))
    (map : forall n j k l v b, P v -> P (MkFieldDescriptor n j k l (Some v) b))
    (field : FieldDescriptor) : P field :=
  match field with
  | MkFieldDescriptor n j k l None b => plain n j k l b
  | MkFieldDescriptor n j k l (Some v) b =>
      map n j k l v b (FieldDescriptor_induction P plain map v)
  end.

(** A node fresh from the type mapper: no title, description, readOnly or
    writeOnly yet. *)
Definition unlabelled (s : Schema) : Prop :=
  Title s = None /\ Description s = None /\ ReadOnly s = None /\ WriteOnly s = None.

(** What [namedSchemaForField] does to the node the type mapper returned,
    once the draft version is known. *)
Definition labelField (g : JSONSchemaGenerator) (field : Field) (isValueProp : bool)
    (version : string) (raw : Schema) : NamedSchema :=
  let behaved :=
    if String.leb "07" version
    then applyFieldBehavior (Behavior (FieldDesc field)) raw else raw in
  let fieldName := if negb isValueProp then formatFieldName g field else "value" in
  let titled :=
    match Ref behaved with
    | None => set_Title fieldName behaved
    | Some _ => behaved
    end in
  let description := filterCommentString g (FieldLeading field) true in
  MkNamedSchema fieldName
    (if negb (String.eqb description "")
     then set_Description description titled else titled).

(** The base shape of a field node: the items of the array for a repeated
    field, the node itself otherwise. *)
Definition baseShape (isList : bool) (node : Schema) : option Schema :=
  if isList then
    match Items node with
    | Some items => ItemsSchema items
    | None => None
    end
  else Some node.

(** Enums are written as strings: the option is set, and set to
    ["string"]. *)
Definition stringEnums (g : JSONSchemaGenerator) : bool :=
  match EnumType (conf g) with
  | Some enumType => String.eqb enumType typeString
  | None => false
  end.

(** ** Oneof groups *)

(** The value property of a member of a oneof group of the document
    [schema]; [None] when the member is skipped. *)
Definition memberProperty (g : JSONSchemaGenerator) (schema : NamedSchema)
    (member : Field) : option NamedSchema :=
  match namedSchemaForField g member schema true with
  | Done actualProperty _ => actualProperty
  | Panic => None
  end.

(** The member has a mapped shape. *)
Definition mapped (g : JSONSchemaGenerator) (schema : NamedSchema) (member : Field)
  : bool :=
  match memberProperty g schema member with
  | Some _ => true
  | None => false
  end.

(** The local definition registered for a member that has a mapped
    shape. *)
Definition memberDefinition (g : JSONSchemaGenerator) (schema : NamedSchema)
    (member : Field) : option NamedSchema :=
  match memberProperty g schema member with
  | Some actualProperty =>
      let ref := (Name schema ++ "_" ++ FieldGoName member)%string in
      Some (MkNamedSchema ref
              (set_Properties
                 [buildKindProperty g (FieldName (FieldDesc member)); actualProperty]
                 (set_Title ref (set_Type (TypeString typeObject) empty))))
  | None => None
  end.

Definition memberDefinitions (g : JSONSchemaGenerator) (schema : NamedSchema)
    (members : list Field) : list NamedSchema :=
  flat_map (fun member =>
              match memberDefinition g schema member with
              | Some definition => [definition]
              | None => []
              end) members.

(** A reference to a local definition of the document. *)
Definition localReference (definition : string) : Schema :=
  set_Ref ("#/definitions/" ++ definition) empty.

Definition memberReferences (g : JSONSchemaGenerator) (schema : NamedSchema)
    (members : list Field) : list Schema :=
  List.map (fun definition => localReference (Name definition))
    (memberDefinitions g schema members).

(** The JSON null type, and a union node with a null default. *)
Definition nullNode : Schema := set_Type (TypeString typeNull) empty.

Definition unionNode (alternatives : list Schema) : Schema :=
  set_OneOf alternatives (set_Default NullTag (set_OneOf [] empty)).

(** The property a oneof group contributes to the document. *)
Definition oneofProperty (g : JSONSchemaGenerator) (schema : NamedSchema)
    (oneof : Oneof) : NamedSchema :=
  MkNamedSchema (formatOneofFieldName g oneof)
    (unionNode (nullNode :: memberReferences g schema (OneofFields oneof))).

(** The definitions of a document after [more] have been registered: the
    collection is created on first use. *)
Definition registerDefinitions (definitions : option (list NamedSchema))
    (more : list NamedSchema) : option (list NamedSchema) :=
  match more with
  | [] => definitions
  | _ =>
      Some (match definitions with
            | Some registered => registered
            | None => []
            end ++ more)
  end.

(** A document with other definitions, or other properties. *)
Definition withDefinitions (definitions : option (list NamedSchema))
    (schema : NamedSchema) : NamedSchema :=
  let s := Value schema in
  MkNamedSchema (Name schema)
    (MkSchema (Schema_ s) (ID s) (Type_ s) (Format s) (Ref s) (Properties s)
       (Items s) (OneOf s) (Enumeration s) (Default s) (Title s) (Description s)
       (ReadOnly s) (WriteOnly s) (AdditionalProperties s) definitions).

Definition withProperties (properties : list NamedSchema) (schema : NamedSchema)
  : NamedSchema :=
  set_Value (set_Properties properties (Value schema)) schema.

(** A registered member definition holds exactly the discriminator [kind],
    an enumeration of one literal, and the property [value]. *)
Definition memberShape (definition : NamedSchema) : Prop :=
  exists kind value literal,
    Properties (Value definition) = Some [kind; value]
    /\ Name kind = "kind"
    /\ Enumeration (Value kind) = Some [EnumString literal]
    /\ Name value = "value".

(** ** Documents *)

(** The properties of the fields outside every oneof group, in field
    order; a field without mapped shape contributes none. *)
Definition plainProperties (g : JSONSchemaGenerator) (schema : NamedSchema)
    (fields : list Field) : list NamedSchema :=
  flat_map (fun field =>
              if InOneof field then []
              else
                match namedSchemaForField g field schema false with
                | Done (Some namedSchema) _ => [namedSchema]
                | _ => []
                end) fields.

(** The document of a message, as the spec words it: the fresh document,
    with the properties of the oneof groups before those of the plain
    fields, and the member definitions of the groups. *)
Definition ownDocument (g : JSONSchemaGenerator) (message : Message) : NamedSchema :=
  let fresh :=
    setupSchemaForMessage g (messageDefinitionName (Desc message)) (Leading message) in
  withProperties
    (List.map (oneofProperty g fresh) (Oneofs message)
     ++ plainProperties g fresh (Fields message))
    (withDefinitions
       (registerDefinitions None
          (flat_map (fun oneof => memberDefinitions g fresh (OneofFields oneof))
             (Oneofs message)))
       fresh).

(** The documents of a message in depth-first order, as the spec words it:
    those of the nested messages first, then its own, which a map entry
    does not have. *)
Fixpoint depthFirstDocuments (g : JSONSchemaGenerator) (message : Message)
  : list NamedSchema :=
  match message with
  | MkMessage desc isMapEntry leading messages oneofs fields =>
      (flat_map (depthFirstDocuments g) messages
       ++ (if isMapEntry then [] else [ownDocument g message]))
  end.

(** The documents of one message are appended to those built so far. *)
Definition appendsDocuments (g : JSONSchemaGenerator) (message : Message) : Prop :=
  forall schemas, exists log,
    buildSchemaFromMessage g schemas message
    = Done (schemas ++ depthFirstDocuments g message) log.

(** ** Sample inputs *)

Definition draft07 : string := "http://json-schema.org/draft-07/schema#".
Definition draft04 : string := "http://json-schema.org/draft-04/schema#".

(** Generators with the [json] naming convention, for draft 07 with
    integer or string enums and for draft 04. *)
Definition json07 : JSONSchemaGenerator :=
  NewJSONSchemaGenerator (MkConfiguration "" draft07 "json" (Some "integer")).
Definition json07_strings : JSONSchemaGenerator :=
  NewJSONSchemaGenerator (MkConfiguration "" draft07 "json" (Some "string")).
Definition json04 : JSONSchemaGenerator :=
  NewJSONSchemaGenerator (MkConfiguration "" draft04 "json" (Some "integer")).

(** A singular field without comment or annotation. *)
Definition plainField (name goName : string) (kind : Kind) (inOneof : bool) : Field :=
  MkField (MkFieldDescriptor name name kind false None []) goName "" inOneof.

(** The fresh document of a message named [Book]. *)
Definition bookDocument (g : JSONSchemaGenerator) : NamedSchema :=
  setupSchemaForMessage g "Book" "".

Definition nested_Foo_Bar : MessageDescriptor := Nested (TopLevel "lib" "Foo") "Bar".

(** A field [author] of message type [lib.Author] with a leading comment. *)
Definition authorField : Field :=
  MkField
    (MkFieldDescriptor "author" "author" (MessageKind (TopLevel "lib" "Author"))
       false None [])
    "Author" " The author of the book. " false.

(** A field [id] marked output-only, and a field [secret] marked
    input-only. *)
Definition outputOnlyField : Field :=
  MkField
    (MkFieldDescriptor "id" "id" StringKind false None [FieldBehavior_OUTPUT_ONLY])
    "Id" "" false.

(** A repeated field of an enum with the values [RED] and [GREEN]. *)
Definition repeatedEnum : FieldDescriptor :=
  MkFieldDescriptor "colors" "colors" (EnumKind ["RED"; "GREEN"]) true None [].

(** A singular field of the same enum. *)
Definition singularEnum : FieldDescriptor :=
  MkFieldDescriptor "color" "color" (EnumKind ["RED"; "GREEN"]) false None [].

(** A message [Holder] with one repeated group field [items]. *)
Definition itemsGroup : MessageDescriptor := Nested (TopLevel "lib" "Holder") "Items".

Definition repeatedGroup : Field :=
  MkField (MkFieldDescriptor "items" "items" (GroupKind itemsGroup) true None [])
    "Items" "" false.

Definition holderMessage : Message :=
  MkMessage (TopLevel "lib" "Holder") false "" [] [] [repeatedGroup].

(** The node the type mapper builds for a repeated field without a base
    shape. *)
Definition arrayOfNothing : Schema :=
  set_Default (ArrayValue emptyArray)
    (set_Items (MkSchemaOrSchemaArray None) (set_Type (TypeString "array") empty)).

(** A message [A], and a message [Holder] with a field [a] of type [A]. *)
Definition messageA : Message := MkMessage (TopLevel "lib" "A") false "" [] [] [].

Definition fieldOfA : Field :=
  plainField "a" "A" (MessageKind (TopLevel "lib" "A")) false.

(** The group [oneof contact { string email; string phone; }]. *)
Definition emailField : Field := plainField "email" "Email" StringKind true.
Definition phoneField : Field := plainField "phone" "Phone" StringKind true.

Definition contactOneof : Oneof :=
  MkOneof "contact" "Contact" [emailField; phoneField].

(** A group whose only member has the type [google.protobuf.Empty]. *)
Definition nothingField : Field :=
  plainField "nothing" "Nothing" (MessageKind (TopLevel "google.protobuf" "Empty")) true.

Definition resultOneof : Oneof := MkOneof "result" "Result" [nothingField].

(** Induction on a message, through its nested messages. *)
Fixpoint Message_induction (P : Message -> Prop)
    (step : forall desc isMapEntry leading messages oneofs fields,
        Forall P messages ->
        P (MkMessage desc isMapEntry leading messages oneofs fields))
    (message : Message) : P message :=
  match message with
  | MkMessage desc isMapEntry leading messages oneofs fields =>
      step desc isMapEntry leading messages oneofs fields
        ((fix all (l : list Message) : Forall P l :=
            match l with
            | [] => Forall_nil P
            | m :: rest => Forall_cons m (Message_induction P step m) (all rest)
            end) messages)
  end.

(** ** Vocabulary of the further properties *)

Definition dot : ascii := "."%char.
Definition openParen : ascii := "("%char.

(** The configuration after [NewJSONSchemaGenerator] (the generator holds
    nothing else). *)
Definition normalised (c : Configuration) : Configuration :=
  conf (NewJSONSchemaGenerator c).

(** A comment [text] that ends in a linter directive around [rule]. *)
Definition withLinterRule (text rule : string) : string :=
  (text ++ "(-- " ++ rule ++ " --)")%string.

(** A schema identifier of the shape the generator recognizes: [http] or
    [https], the draft after [draft-] or [draft/], and anything behind
    [/schema]. *)
Definition draftURL (secure dash : bool) (version rest : string) : string :=
  ((if secure then "https" else "http") ++ "://json-schema.org/draft"
   ++ (if dash then "-" else "/") ++ version ++ "/schema" ++ rest)%string.

(** The name a message type is looked up by among the well-known types. *)
Definition wellKnownName (desc : MessageDescriptor) : string :=
  ("." ++ Package desc ++ "." ++ protoreflect.Name desc)%string.

(** The array node around a base shape. *)
Definition arrayOf (base : option Schema) : Schema :=
  set_Default (ArrayValue emptyArray)
    (set_Items (MkSchemaOrSchemaArray base) (set_Type (TypeString "array") empty)).

(** The lines the type mapper logs for a field: one for a group, looked for
    in the value field of a map. *)
Fixpoint diagnostics (field : FieldDescriptor) : list string :=
  match field with
  | MkFieldDescriptor _ _ kind _ mapValue _ =>
      match mapValue with
      | Some value => diagnostics value
      | None =>
          match kind with
          | GroupKind message =>
              [("(TODO) Unsupported field type: " ++ FullName message)%string]
          | _ => []
          end
      end
  end.

(** A map field whose values have the type [google.protobuf.Empty]. *)
Definition emptyValuedMap : FieldDescriptor :=
  MkFieldDescriptor "flags" "flags"
    (MessageKind (Nested (TopLevel "lib" "Book") "FlagsEntry")) false
    (Some (FieldDesc nothingField)) [].

(** A repeated field of strings. *)
Definition repeatedStrings : FieldDescriptor :=
  MkFieldDescriptor "tags" "tags" StringKind true None [].

(** The discriminator of the definition registered for a oneof member: the
    definition is an object titled by its own name, and its property [kind]
    is a string whose enumeration and default are the declared name of the
    member; its second property is the value property of the member. *)
Definition discriminates (g : JSONSchemaGenerator) (schema : NamedSchema)
    (member : Field) (definition : NamedSchema) : Prop :=
  exists kind value,
    Properties (Value definition) = Some [kind; value]
    /\ Type_ (Value definition) = Some (TypeString "object")
    /\ Title (Value definition) = Some (Name definition)
    /\ Type_ (Value kind) = Some (TypeString "string")
    /\ Enumeration (Value kind) = Some [EnumString (FieldName (FieldDesc member))]
    /\ Default (Value kind) = Some (StringValue (FieldName (FieldDesc member)))
    /\ memberProperty g schema member = Some value.

(** The head of a document: the configured schema identifier, the id made
    of base URL, name and [.json], the object type, the name as title, a
    properties list, and no reference. *)
Definition documentHead (g : JSONSchemaGenerator) (document : NamedSchema) : Prop :=
  Schema_ (Value document) = Some (Version (conf g))
  /\ ID (Value document)
     = Some (BaseURL (conf g) ++ Name document ++ ".json")%string
  /\ Type_ (Value document) = Some (TypeString "object")
  /\ Title (Value document) = Some (Name document)
  /\ Properties (Value document) <> None
  /\ Ref (Value document) = None.

(** The serializer returns for the document, rather than panic. *)
Definition serializes (JSONString : Schema -> Outcome string)
    (document : NamedSchema) : Prop :=
  exists bytes log, JSONString (Value document) = Done bytes log.

(** The file written for a document the serializer returns for. *)
Definition fileOf (JSONString : Schema -> Outcome string) (document : NamedSchema)
  : GeneratedFile :=
  MkGeneratedFile (Name document ++ ".json")%string
    match JSONString (Value document) with
    | Done bytes _ => bytes
    | Panic => ""%string
    end.

(** The documents of the files marked for generation. *)
Definition requestedDocuments (g : JSONSchemaGenerator) (files : list File)
  : list NamedSchema :=
  flat_map (fun file =>
              if Generate file
              then flat_map (depthFirstDocuments g) (FileMessages file)
              else []) files.

(** The naming convention leaves the name of a message as it is: always
    under [proto], and otherwise for a name of two bytes or more that
    starts with an upper-case ASCII letter. *)
Definition keepsName (g : JSONSchemaGenerator) (name : string) : Prop :=
  Naming (conf g) = "proto"%string
  \/ exists first rest,
      name = String first rest /\ rest <> ""%string /\ strings.isUpper first = true.

(** A message [Author] without fields. *)
Definition authorMessage : Message :=
  MkMessage (TopLevel "lib" "Author") false "" [] [] [].

(** The string starts, or ends, with one of the six ASCII white-space
    bytes. *)
Definition startsWithSpace (s : string) : bool :=
  match s with
  | String c _ => strings.asciiSpace c
  | EmptyString => false
  end.

Definition endsWithSpace (s : string) : bool := startsWithSpace (strings.rev s).

(** The descriptors of the messages that get a document, in the order of
    the builder: nested messages first, map entries left out. *)
Fixpoint documentedMessages (message : Message) : list MessageDescriptor :=
  match message with
  | MkMessage desc isMapEntry leading messages oneofs fields =>
      flat_map documentedMessages messages ++ (if isMapEntry then [] else [desc])
  end.

Definition requestedMessages (files : list File) : list MessageDescriptor :=
  flat_map (fun file =>
              if Generate file
              then flat_map documentedMessages (FileMessages file)
              else []) files.

(** The draft named by the configured schema identifier: what the pattern
    of the generator captures in it, and the empty string when the
    identifier does not match. *)
Definition configuredDraft (g : JSONSchemaGenerator) : string :=
  match regexp.FindSchemaVersionSubmatch (Version (conf g)) with
  | [_; version] => version
  | _ => ""%string
  end.

(** A message [Book] with the group [contact]. *)
Definition contactMessage : Message :=
  MkMessage (TopLevel "lib" "Book") false "" [] [contactOneof]
    [emailField; phoneField].

(** A stand-in for the serializer in sample runs: it panics on a node
    among the properties of a document whose items or additional
    properties hold a nil schema and otherwise returns the title of the
    document. *)
Definition hasNilSchema (node : Schema) : bool :=
  match Items node, AdditionalProperties node with
  | Some (MkSchemaOrSchemaArray None), _ => true
  | _, Some (MkSchemaOrBoolean None) => true
  | _, _ => false
  end.

Definition sampleJSONString (document : Schema) : Outcome string :=
  match Properties document with
  | Some properties =>
      if existsb (fun property => hasNilSchema (Value property)) properties
      then Panic
      else ret match Title document with Some title => title | None => ""%string end
  | None => ret ""%string
  end.

(** A request with one file to generate, holding [Author] and [Book], and
    one that is passed over. *)
Definition sampleFiles : list File :=
  [MkFile true [authorMessage; contactMessage]; MkFile false [holderMessage]].

(** * Properties *)

(** ** Byte strings *)

Section StringFacts.

Lemma length_append (a b : string) :
  String.length (a ++ b) = String.length a + String.length b.
Proof.
  induction a as [|c a IH]; simpl; [reflexivity | now rewrite IH].
Qed.

Lemma append_assoc (a b c : string) : ((a ++ b) ++ c = a ++ (b ++ c))%string.
Proof.
  induction a as [|d a IH]; simpl; [reflexivity | now rewrite IH].
Qed.

Lemma sliceFrom_append (a b : string) :
  strings.sliceFrom (String.length a) (a ++ b) = b.
Proof.
  induction a as [|c a IH]; simpl; [now destruct b | exact IH].
Qed.

Lemma contains_append (c : ascii) (a b : string) :
  strings.contains c (a ++ b) = strings.contains c a || strings.contains c b.
Proof.
  induction a as [|d a IH]; simpl; [reflexivity|].
  now rewrite IH, orb_assoc.
Qed.


End StringFacts.

(** ** Document names *)

Section DocumentNames.

Lemma FullName_relativeName (desc : MessageDescriptor) :
  Package desc <> "" ->
  FullName desc = (Package desc ++ "." ++ relativeName desc)%string.
Proof.
  intros Hpkg.
  induction desc as [pkg name | parent IH name]; simpl in *.
  - destruct pkg; [congruence | reflexivity].
  - rewrite (IH Hpkg).
    destruct (Package parent) as [|c p] eqn:E; [congruence|].
    simpl. f_equal.
    now rewrite append_assoc.
Qed.

(** Under a non-empty package the document name is the name relative to the
    package, with every dot replaced by an underscore. *)
Lemma messageDefinitionName_relativeName (desc : MessageDescriptor) :
  Package desc <> "" ->
  messageDefinitionName desc = strings.ReplaceByte "." "_" (relativeName desc).
Proof.
  intros Hpkg. unfold messageDefinitionName.
  destruct desc as [pkg name | parent name]; simpl.
  - now rewrite Nat.ltb_irrefl.
  - simpl in Hpkg. rewrite (FullName_relativeName parent Hpkg).
    set (pkg := Package parent).
    replace (pkg ++ "." ++ relativeName parent)%string
      with ((pkg ++ ".") ++ relativeName parent)%string by apply append_assoc.
    replace (String.length pkg + 1) with (String.length (pkg ++ "."))
      by (now rewrite length_append).
    rewrite sliceFrom_append.
    rewrite !length_append. simpl.
    replace (String.length pkg <? String.length pkg + 1 + String.length (relativeName parent))
      with true by (symmetry; apply Nat.ltb_lt; lia).
    reflexivity.
Qed.





(** Without a package the first byte of the enclosing path is lost: the
    message [C] nested in [AB] is named [B_C]. *)
Example messageDefinitionName_no_package :
  messageDefinitionName (Nested (TopLevel "" "AB") "C") = "B_C".
Proof. reflexivity. Qed.

End DocumentNames.

(** ** Outcomes *)

Section Outcomes.

Context {A B : Type}.

Lemma bind_Done (m : Outcome A) (f : A -> Outcome B) (b : B) (log : list string) :
  bind m f = Done b log ->
  exists a l1 l2, m = Done a l1 /\ f a = Done b l2 /\ log = (l1 ++ l2).
Proof.
  unfold bind. destruct m as [a l1|]; [|discriminate].
  destruct (f a) as [b' l2|] eqn:E; [|discriminate].
  intros [= <- <-]. now exists a, l1, l2.
Qed.

Lemma bind_Done_intro (m : Outcome A) (f : A -> Outcome B) a l1 b l2 :
  m = Done a l1 -> f a = Done b l2 -> bind m f = Done b (l1 ++ l2).
Proof.
  intros -> H. unfold bind. now rewrite H.
Qed.

End Outcomes.

(** ** The type mapper *)

Section TypeMapper.

Variable g : JSONSchemaGenerator.

Lemma enumValuesLoop_closed (values : list string) :
  forall i kindSchema e,
    Enumeration kindSchema = Some e ->
    enumValuesLoop i values kindSchema =
      match values with
      | [] => kindSchema
      | name :: _ =>
          set_Enumeration (e ++ List.map EnumString values)
            (if i =? 0 then set_Default (StringValue name) kindSchema else kindSchema)
      end.
Proof.
  induction values as [|name rest IH]; intros i kindSchema e He; [reflexivity|].
  cbn [enumValuesLoop]. rewrite He.
  rewrite (IH (S i) _ (e ++ [EnumString name])).
  2:{ now destruct (i =? 0). }
  destruct rest as [|next rest'].
  - now destruct (i =? 0).
  - cbn [Nat.eqb]. cbn [List.map]. rewrite <- app_assoc. cbn [app].
    destruct kindSchema; now destruct (i =? 0).
Qed.

Lemma schemaOrReferenceForType_unlabelled (desc : MessageDescriptor) (s : Schema) :
  schemaOrReferenceForType g desc = Some s -> unlabelled s.
Proof.
  unfold schemaOrReferenceForType.
  repeat match goal with
         | |- context [if ?c then _ else _] => destruct c
         end;
    intros [= <-]; repeat split.
Qed.

Lemma enumSchema_unlabelled (values : list string) : unlabelled (enumSchema g values).
Proof.
  unfold enumSchema.
  destruct (EnumType (conf g)) as [t|]; [destruct (String.eqb t typeString)|];
    try (repeat split; fail).
  rewrite (enumValuesLoop_closed values 0 _ []) by reflexivity.
  destruct values; repeat split.
Qed.

Lemma schemaOrReferenceForField_unlabelled (field : FieldDescriptor) defs s log :
  schemaOrReferenceForField g field defs = Done (Some s) log -> unlabelled s.
Proof.
  destruct field as [n j kind isList [v|] b]; cbn [schemaOrReferenceForField].
  - intros H. apply bind_Done in H as (a & l1 & l2 & _ & H & _).
    injection H as <- _. repeat split.
  - destruct kind; cbn; try (destruct isList; intros [= <- _]; repeat split; fail).
    + destruct isList; intros [= <- _]; [repeat split | apply enumSchema_unlabelled].
    + destruct (schemaOrReferenceForType g message) as [ks|] eqn:E; cbn.
      * destruct isList; intros [= <- _]; [repeat split|].
        now apply schemaOrReferenceForType_unlabelled in E.
      * discriminate.
Qed.

(** The type mapper never panics, and ignores the definitions it is
    handed. *)
Lemma schemaOrReferenceForField_total (field : FieldDescriptor) :
  forall defs, exists r log,
    schemaOrReferenceForField g field defs = Done r log
    /\ schemaOrReferenceForField g field None = Done r log.
Proof.
  induction field as [n j kind isList b | n j kind isList v b IH]
    using FieldDescriptor_induction; intros defs.
  - cbn [schemaOrReferenceForField].
    destruct kind; cbn;
      try (destruct isList; eexists; eexists; split; reflexivity).
    destruct (schemaOrReferenceForType g message); cbn;
      try destruct isList; eexists; eexists; split; reflexivity.
  - cbn [schemaOrReferenceForField].
    destruct (IH defs) as (r & log & -> & H0).
    assert (H1 : schemaOrReferenceForField g v None = Done r log).
    { destruct (IH None) as (r' & log' & E & _). congruence. }
    rewrite H1. cbn. eexists; eexists; split; reflexivity.
Qed.

End TypeMapper.

(** ** Field nodes *)

Section FieldNodes.

Variable g : JSONSchemaGenerator.

Lemma getSchemaVersion_cases (schema : Schema) :
  match Schema_ schema with
  | Some _ => exists version, getSchemaVersion schema = Done version []
  | None => getSchemaVersion schema = Panic
  end.
Proof.
  unfold getSchemaVersion.
  destruct (Schema_ schema) as [url|]; [|reflexivity]. cbn.
  destruct (regexp.FindSchemaVersionSubmatch url) as [|whole [|version [|more rest]]];
    eexists; reflexivity.
Qed.

Lemma namedSchemaForField_Some (field : Field) (schema : NamedSchema)
    (isValueProp : bool) (ns : NamedSchema) (log : list string) :
  namedSchemaForField g field schema isValueProp = Done (Some ns) log ->
  exists raw version,
    schemaOrReferenceForField g (FieldDesc field) (Definitions (Value schema))
      = Done (Some raw) log
    /\ getSchemaVersion (Value schema) = Done version []
    /\ ns = labelField g field isValueProp version raw.
Proof.
  unfold namedSchemaForField. intros H.
  apply bind_Done in H as ([raw|] & l1 & l2 & Hraw & H & ->); [|discriminate].
  pose proof (getSchemaVersion_cases (Value schema)) as Hv.
  destruct (Schema_ (Value schema)); [destruct Hv as [version Hv]|];
    rewrite Hv in H; cbn in H; [|discriminate].
  injection H as <- <-. exists raw, version.
  rewrite app_nil_r. repeat split; assumption.
Qed.

Lemma applyFieldBehavior_keeps (v : list FieldBehavior) :
  forall s,
    Ref (applyFieldBehavior v s) = Ref s
    /\ Title (applyFieldBehavior v s) = Title s
    /\ Description (applyFieldBehavior v s) = Description s.
Proof.
  induction v as [|vv rest IH]; intros s; cbn [applyFieldBehavior];
    [repeat split|].
  destruct (IH (if is_OUTPUT_ONLY vv then set_ReadOnly true s
                else if is_INPUT_ONLY vv then set_WriteOnly true s else s))
    as (-> & -> & ->).
  destruct (is_OUTPUT_ONLY vv), (is_INPUT_ONLY vv); repeat split.
Qed.

Lemma applyFieldBehavior_ReadOnly (v : list FieldBehavior) :
  forall s,
    ReadOnly (applyFieldBehavior v s) <> None
    <-> ReadOnly s <> None \/ In FieldBehavior_OUTPUT_ONLY v.
Proof.
  induction v as [|vv rest IH]; intros s; cbn [applyFieldBehavior].
  - cbn. tauto.
  - rewrite IH. destruct vv; cbn; intuition (discriminate || congruence).
Qed.

Lemma applyFieldBehavior_WriteOnly (v : list FieldBehavior) :
  forall s,
    WriteOnly (applyFieldBehavior v s) <> None
    <-> WriteOnly s <> None \/ In FieldBehavior_INPUT_ONLY v.
Proof.
  induction v as [|vv rest IH]; intros s; cbn [applyFieldBehavior].
  - cbn. tauto.
  - rewrite IH. destruct vv; cbn; intuition (discriminate || congruence).
Qed.

Lemma labelField_ReadOnly field isValueProp version raw :
  ReadOnly (Value (labelField g field isValueProp version raw))
  = ReadOnly (if String.leb "07" version
              then applyFieldBehavior (Behavior (FieldDesc field)) raw else raw).
Proof.
  unfold labelField. cbn.
  repeat match goal with
         | |- context [match ?c with _ => _ end] => destruct c
         end; reflexivity.
Qed.

Lemma labelField_WriteOnly field isValueProp version raw :
  WriteOnly (Value (labelField g field isValueProp version raw))
  = WriteOnly (if String.leb "07" version
               then applyFieldBehavior (Behavior (FieldDesc field)) raw else raw).
Proof.
  unfold labelField. cbn.
  repeat match goal with
         | |- context [match ?c with _ => _ end] => destruct c
         end; reflexivity.
Qed.

End FieldNodes.

(** ** C3: references, titles and descriptions *)

Section ReferenceNodes.

Variable g : JSONSchemaGenerator.

(** C3, as stated, fails: the node of [author] is a reference and carries a
    description. *)
Lemma reference_node_with_description :
  exists node,
    namedSchemaForField json07 authorField (bookDocument json07) false
      = Done (Some (MkNamedSchema "author" node)) []
    /\ Ref node = Some "Author.json"
    /\ Description node = Some "The author of the book.".
Proof.
  eexists. split; [reflexivity | split; reflexivity].
Qed.

(** C3, amended: a field node that carries a reference carries no title; it
    carries a description exactly when the filtered leading comment of the
    field is not empty. *)
Theorem reference_node_untitled (field : Field) (schema : NamedSchema)
    (isValueProp : bool) (ns : NamedSchema) (log : list string) :
  namedSchemaForField g field schema isValueProp = Done (Some ns) log ->
  Ref (Value ns) <> None ->
  Title (Value ns) = None
  /\ (Description (Value ns) <> None
      <-> filterCommentString g (FieldLeading field) true <> "").
Proof.
  intros H Href.
  apply namedSchemaForField_Some in H as (raw & version & Hraw & _ & ->).
  apply schemaOrReferenceForField_unlabelled in Hraw as (Ht & Hd & _ & _).
  unfold labelField in *. cbn [Value] in *.
  set (behaved := if String.leb "07" version
                  then applyFieldBehavior (Behavior (FieldDesc field)) raw else raw) in *.
  assert (Hb : Title behaved = None /\ Description behaved = None).
  { subst behaved. destruct (String.leb "07" version); [|now split].
    destruct (applyFieldBehavior_keeps (Behavior (FieldDesc field)) raw)
      as (_ & -> & ->). now split. }
  destruct Hb as [Hbt Hbd].
  destruct (String.eqb_spec (filterCommentString g (FieldLeading field) true) "")
    as [E|E]; cbn [negb] in *.
  - destruct (Ref behaved) eqn:R.
    + split; [assumption|]. rewrite Hbd. tauto.
    + exfalso. apply Href. cbn. exact R.
  - destruct (Ref behaved) eqn:R.
    + split; [cbn; assumption|]. cbn. split; [tauto | discriminate].
    + exfalso. apply Href. cbn. exact R.
Qed.

End ReferenceNodes.

Lemma reference_node_untitled_witness :
  Title (set_Description "The author of the book." (set_Ref "Author.json" empty)) = None
  /\ (Description (set_Description "The author of the book."
                     (set_Ref "Author.json" empty)) <> None
      <-> filterCommentString json07 (FieldLeading authorField) true <> "").
Proof.
  apply (reference_node_untitled json07 authorField (bookDocument json07) false
           (MkNamedSchema "author"
              (set_Description "The author of the book." (set_Ref "Author.json" empty)))
           []).
  - reflexivity.
  - discriminate.
Defined.

(** ** C7: enum fields *)

Section EnumFields.

Variable g : JSONSchemaGenerator.

(** C7, as stated, fails on a repeated enum field: in integer mode its node
    has the type [array] and the empty array as default. *)
Lemma repeated_enum_is_array :
  exists node,
    schemaOrReferenceForField json07 repeatedEnum None = Done (Some node) []
    /\ Type_ node = Some (TypeString "array")
    /\ Default node = Some (ArrayValue []).
Proof.
  eexists. split; [reflexivity | split; reflexivity].
Qed.

(** C7, amended: for every enum-typed field the base shape (the node of a
    singular field, the items of the array node of a repeated field) has,
    in integer mode, integer type and default 0 and, in string mode, string
    type, the declared value names in declaration order as enumeration and
    the first declared name as default. *)
Theorem enum_field_base_shape (field : FieldDescriptor) (values : list string)
    (defs : option (list NamedSchema)) :
  FieldKind field = EnumKind values ->
  MapValue field = None ->
  exists node base,
    schemaOrReferenceForField g field defs = Done (Some node) []
    /\ baseShape (IsList field) node = Some base
    /\ if stringEnums g then
         Type_ base = Some (TypeString "string")
         /\ Enumeration base = Some (List.map EnumString values)
         /\ Default base = option_map StringValue (hd_error values)
       else
         Type_ base = Some (TypeString "integer")
         /\ Default base = Some (Int64Value 0).
Proof.
  destruct field as [n j kind isList mv b]. cbn. intros -> ->.
  exists (if isList
          then set_Default (ArrayValue emptyArray)
                 (set_Items (MkSchemaOrSchemaArray (Some (enumSchema g values)))
                    (set_Type (TypeString "array") empty))
          else enumSchema g values), (enumSchema g values).
  split; [now destruct isList|].
  split; [now destruct isList|].
  unfold stringEnums, enumSchema.
  destruct (EnumType (conf g)) as [t|]; [destruct (String.eqb t typeString)|];
    try (split; reflexivity).
  rewrite (enumValuesLoop_closed values 0 _ []) by reflexivity.
  destruct values; repeat split.
Qed.

End EnumFields.

Lemma enum_field_base_shape_witness :
  exists node base,
    schemaOrReferenceForField json07_strings repeatedEnum None = Done (Some node) []
    /\ baseShape (IsList repeatedEnum) node = Some base
    /\ if stringEnums json07_strings then
         Type_ base = Some (TypeString "string")
         /\ Enumeration base = Some (List.map EnumString ["RED"; "GREEN"])
         /\ Default base = option_map StringValue (hd_error ["RED"; "GREEN"])
       else
         Type_ base = Some (TypeString "integer")
         /\ Default base = Some (Int64Value 0).
Proof.
  apply (enum_field_base_shape json07_strings repeatedEnum ["RED"; "GREEN"] None);
    reflexivity.
Defined.

(** ** C8: fields of an unrecognized kind *)

(** A singular group field is logged and gets no node. *)
Lemma singular_group_omitted (g : JSONSchemaGenerator) n j message b defs :
  schemaOrReferenceForField g (MkFieldDescriptor n j (GroupKind message) false None b) defs
  = Done None [("(TODO) Unsupported field type: " ++ FullName message)%string].
Proof. reflexivity. Qed.

(** C8 at a repeated group field: the diagnostic is logged, yet the type
    mapper returns an array node without items, and the document of the
    message holds it as the property [items]. *)
Theorem repeated_group_kept :
  schemaOrReferenceForField json07 (FieldDesc repeatedGroup) None
  = Done (Some arrayOfNothing) ["(TODO) Unsupported field type: lib.Holder.Items"]
  /\ exists document,
      buildSchemasFromMessages json07 [holderMessage]
      = Done [document] ["(TODO) Unsupported field type: lib.Holder.Items"]
      /\ Properties (Value document)
         = Some [MkNamedSchema "items" (set_Title "items" arrayOfNothing)].
Proof.
  split; [reflexivity|].
  eexists. split; reflexivity.
Qed.

(** ** C2: references and document names *)

(** C2 at a message named [A] under the [json] naming convention: the
    reference of a field of type [A] is [a.json], and the document built
    for [A] is named [A]. *)
Theorem reference_misses_document :
  namedSchemaForField json07 fieldOfA (bookDocument json07) false
  = Done (Some (MkNamedSchema "a" (set_Ref "a.json" empty))) []
  /\ exists document,
      buildSchemasFromMessages json07 [messageA] = Done [document] []
      /\ Name document = "A".
Proof.
  split; [reflexivity|].
  eexists. split; reflexivity.
Qed.

(** Where the naming convention leaves the document name as it is (always
    under [proto]), the reference of a message that is not well known is
    its document name followed by [.json]. *)
Lemma reference_resolves (g : JSONSchemaGenerator) (desc : MessageDescriptor)
    (node : Schema) :
  formatMessageNameString g (messageDefinitionName desc) = messageDefinitionName desc ->
  schemaOrReferenceForType g desc = Some node ->
  Ref node <> None ->
  Ref node = Some (messageDefinitionName desc ++ ".json")%string.
Proof.
  intros Hname. unfold schemaOrReferenceForType.
  repeat match goal with
         | |- context [if ?c then _ else _] => destruct c
         end;
    intros [= <-]; try (cbn; congruence).
  intros _. unfold set_Ref. cbn [Ref]. now rewrite Hname.
Qed.

Lemma formatMessageNameString_proto (g : JSONSchemaGenerator) (name : string) :
  Naming (conf g) = "proto" -> formatMessageNameString g name = name.
Proof.
  intros H. unfold formatMessageNameString. now rewrite H.
Qed.

(** ** The oneof expander *)

Section OneofExpander.

Variable g : JSONSchemaGenerator.

(** [namedSchemaForField] reads the name of the document not at all and
    its value only for the schema identifier. *)
Lemma namedSchemaForField_header (field : Field) (s1 s2 : NamedSchema) (b : bool) :
  Schema_ (Value s1) = Schema_ (Value s2) ->
  namedSchemaForField g field s1 b = namedSchemaForField g field s2 b.
Proof.
  intros H. unfold namedSchemaForField.
  destruct (schemaOrReferenceForField_total g (FieldDesc field) (Definitions (Value s1)))
    as (r1 & l1 & -> & E1).
  destruct (schemaOrReferenceForField_total g (FieldDesc field) (Definitions (Value s2)))
    as (r2 & l2 & -> & E2).
  rewrite E1 in E2. injection E2 as <- <-.
  unfold getSchemaVersion. now rewrite H.
Qed.

Lemma namedSchemaForField_total (field : Field) (schema : NamedSchema) (b : bool)
    (url : string) :
  Schema_ (Value schema) = Some url ->
  exists r log, namedSchemaForField g field schema b = Done r log.
Proof.
  intros H. unfold namedSchemaForField.
  destruct (schemaOrReferenceForField_total g (FieldDesc field)
              (Definitions (Value schema))) as ([raw|] & l & -> & _); cbn.
  - pose proof (getSchemaVersion_cases (Value schema)) as Hv. rewrite H in Hv.
    destruct Hv as [version ->]. cbn. eexists; eexists; reflexivity.
  - eexists; eexists; reflexivity.
Qed.

Lemma memberProperty_header (s1 s2 : NamedSchema) (member : Field) :
  Schema_ (Value s1) = Schema_ (Value s2) ->
  memberProperty g s1 member = memberProperty g s2 member.
Proof.
  intros H. unfold memberProperty.
  now rewrite (namedSchemaForField_header member s1 s2 true H).
Qed.

Lemma memberDefinitions_header (s1 s2 : NamedSchema) (members : list Field) :
  Name s1 = Name s2 ->
  Schema_ (Value s1) = Schema_ (Value s2) ->
  memberDefinitions g s1 members = memberDefinitions g s2 members.
Proof.
  intros Hn Hs. unfold memberDefinitions.
  apply flat_map_ext. intros member. unfold memberDefinition.
  now rewrite (memberProperty_header s1 s2 member Hs), Hn.
Qed.

Lemma memberReferences_header (s1 s2 : NamedSchema) (members : list Field) :
  Name s1 = Name s2 ->
  Schema_ (Value s1) = Schema_ (Value s2) ->
  memberReferences g s1 members = memberReferences g s2 members.
Proof.
  intros Hn Hs. unfold memberReferences.
  now rewrite (memberDefinitions_header s1 s2 members Hn Hs).
Qed.

Lemma memberDefinitions_cons (schema : NamedSchema) (member : Field)
    (rest : list Field) :
  memberDefinitions g schema (member :: rest)
  = (memberDefinitions g schema [member] ++ memberDefinitions g schema rest).
Proof.
  unfold memberDefinitions. cbn [flat_map]. now rewrite app_nil_r.
Qed.

Lemma memberReferences_cons (schema : NamedSchema) (member : Field)
    (rest : list Field) :
  memberReferences g schema (member :: rest)
  = (memberReferences g schema [member] ++ memberReferences g schema rest).
Proof.
  unfold memberReferences. now rewrite memberDefinitions_cons, map_app.
Qed.

Lemma registerDefinitions_app (definitions : option (list NamedSchema))
    (first more : list NamedSchema) :
  registerDefinitions (registerDefinitions definitions first) more
  = registerDefinitions definitions (first ++ more).
Proof.
  destruct first as [|d first]; [reflexivity|].
  destruct more as [|e more].
  - now rewrite app_nil_r.
  - cbn. now rewrite <- app_assoc.
Qed.

Lemma withDefinitions_twice (d1 d2 : option (list NamedSchema)) (schema : NamedSchema) :
  withDefinitions d2 (withDefinitions d1 schema) = withDefinitions d2 schema.
Proof. reflexivity. Qed.

Lemma withDefinitions_same (schema : NamedSchema) :
  withDefinitions (Definitions (Value schema)) schema = schema.
Proof.
  now destruct schema as [name []].
Qed.

Lemma set_OneOf_same (u : Schema) (alternatives : list Schema) :
  OneOf u = Some alternatives -> set_OneOf alternatives u = u.
Proof.
  destruct u. cbn. now intros ->.
Qed.

(** One member: skipped without mapped shape, registered otherwise. *)
Lemma addOneofField_step (schema : NamedSchema) (u : Schema) (member : Field)
    (url : string) (alternatives : list Schema) :
  Schema_ (Value schema) = Some url ->
  OneOf u = Some alternatives ->
  exists log,
    addOneofField g (schema, u) member
    = Done (withDefinitions
              (registerDefinitions (Definitions (Value schema))
                 (memberDefinitions g schema [member])) schema,
            set_OneOf (alternatives ++ memberReferences g schema [member]) u) log.
Proof.
  intros Hurl Halt.
  unfold addOneofField, memberReferences, memberDefinitions. cbn [flat_map].
  unfold memberDefinition, memberProperty.
  destruct (namedSchemaForField_total member schema true url Hurl) as (r & log & ->).
  destruct r as [actual|]; cbn.
  - rewrite Halt. cbn.
    destruct (Definitions (Value schema)) as [registered|] eqn:D; cbn;
      rewrite ?D; cbn; eexists; reflexivity.
  - rewrite (app_nil_r alternatives), withDefinitions_same,
      (set_OneOf_same u alternatives Halt).
    eexists; reflexivity.
Qed.

(** The loop over the members of a group. *)
Lemma addOneofField_loop (members : list Field) :
  forall (schema : NamedSchema) (u : Schema) (url : string)
         (alternatives : list Schema),
    Schema_ (Value schema) = Some url ->
    OneOf u = Some alternatives ->
    exists log,
      forRange (addOneofField g) members (schema, u)
      = Done (withDefinitions
                (registerDefinitions (Definitions (Value schema))
                   (memberDefinitions g schema members)) schema,
              set_OneOf (alternatives ++ memberReferences g schema members) u) log.
Proof.
  induction members as [|member rest IH]; intros schema u url alternatives Hurl Halt.
  - cbn. rewrite (app_nil_r alternatives), withDefinitions_same,
      (set_OneOf_same u alternatives Halt).
    eexists; reflexivity.
  - cbn [forRange].
    destruct (addOneofField_step schema u member url alternatives Hurl Halt)
      as (l1 & ->).
    pose (schema1 := withDefinitions
                       (registerDefinitions (Definitions (Value schema))
                          (memberDefinitions g schema [member])) schema).
    pose (u1 := set_OneOf (alternatives ++ memberReferences g schema [member]) u).
    destruct (IH schema1 u1 url (alternatives ++ memberReferences g schema [member]))
      as (l2 & E); [exact Hurl | reflexivity |].
    assert (Hdefs : memberDefinitions g schema1 rest = memberDefinitions g schema rest)
      by (apply memberDefinitions_header; reflexivity).
    assert (Hrefs : memberReferences g schema1 rest = memberReferences g schema rest)
      by (apply memberReferences_header; reflexivity).
    rewrite Hdefs, Hrefs in E. subst schema1 u1.
    cbn [bind]. rewrite E. eexists. f_equal. f_equal.
    + rewrite withDefinitions_twice. cbn [Value withDefinitions Definitions].
      now rewrite registerDefinitions_app, (memberDefinitions_cons schema member rest).
    + now rewrite <- app_assoc, (memberReferences_cons schema member rest).
Qed.

End OneofExpander.

Section OneofGroups.

Variable g : JSONSchemaGenerator.

Lemma withProperties_same (schema : NamedSchema) (ps : list NamedSchema) :
  Properties (Value schema) = Some ps -> withProperties ps schema = schema.
Proof.
  destruct schema as [name []]. cbn. now intros ->.
Qed.

(** One group: one property, and the definitions of its members. *)
Lemma addOneof_step (schema : NamedSchema) (oneof : Oneof) (url : string)
    (ps : list NamedSchema) :
  Schema_ (Value schema) = Some url ->
  Properties (Value schema) = Some ps ->
  exists log,
    addOneof g schema oneof
    = Done (withProperties (ps ++ [oneofProperty g schema oneof])
              (withDefinitions
                 (registerDefinitions (Definitions (Value schema))
                    (memberDefinitions g schema (OneofFields oneof))) schema)) log.
Proof.
  intros Hurl Hps. unfold addOneof. cbn [appendTo OneOf set_OneOf set_Default deref bind ret].
  cbn [app].
  destruct (addOneofField_loop g (OneofFields oneof) schema
              (set_OneOf [set_Type (TypeString typeNull) empty]
                 (set_Default NullTag (set_OneOf [] empty)))
              url [nullNode] Hurl eq_refl) as (log & E).
  unfold bind at 1. rewrite E.
  cbn [Value withDefinitions Properties]. rewrite Hps.
  cbn. eexists. reflexivity.
Qed.

Lemma oneofProperty_header (s1 s2 : NamedSchema) (oneof : Oneof) :
  Name s1 = Name s2 ->
  Schema_ (Value s1) = Schema_ (Value s2) ->
  oneofProperty g s1 oneof = oneofProperty g s2 oneof.
Proof.
  intros Hn Hs. unfold oneofProperty.
  now rewrite (memberReferences_header g s1 s2 _ Hn Hs).
Qed.

(** The loop over the groups of a message. *)
Lemma addOneofFieldsToSchema_closed (oneofs : list Oneof) :
  forall (schema : NamedSchema) (url : string) (ps : list NamedSchema),
    Schema_ (Value schema) = Some url ->
    Properties (Value schema) = Some ps ->
    exists log,
      addOneofFieldsToSchema g oneofs schema
      = Done (withProperties (ps ++ List.map (oneofProperty g schema) oneofs)
                (withDefinitions
                   (registerDefinitions (Definitions (Value schema))
                      (flat_map (fun oneof =>
                                   memberDefinitions g schema (OneofFields oneof))
                         oneofs)) schema)) log.
Proof.
  unfold addOneofFieldsToSchema.
  induction oneofs as [|oneof rest IH]; intros schema url ps Hurl Hps.
  - cbn. rewrite app_nil_r, withDefinitions_same, (withProperties_same schema ps Hps).
    eexists; reflexivity.
  - cbn [forRange].
    destruct (addOneof_step schema oneof url ps Hurl Hps) as (l1 & ->).
    pose (schema1 := withProperties (ps ++ [oneofProperty g schema oneof])
                       (withDefinitions
                          (registerDefinitions (Definitions (Value schema))
                             (memberDefinitions g schema (OneofFields oneof))) schema)).
    destruct (IH schema1 url (ps ++ [oneofProperty g schema oneof]))
      as (l2 & E); [exact Hurl | reflexivity |].
    assert (Hprops : List.map (oneofProperty g schema1) rest
                     = List.map (oneofProperty g schema) rest).
    { apply map_ext. intros o. now apply oneofProperty_header. }
    assert (Hdefs : flat_map (fun o => memberDefinitions g schema1 (OneofFields o)) rest
                    = flat_map (fun o => memberDefinitions g schema (OneofFields o)) rest).
    { apply flat_map_ext. intros o. now apply memberDefinitions_header. }
    rewrite Hprops, Hdefs in E. subst schema1.
    cbn [bind]. rewrite E. eexists. f_equal.
    cbn [Value withDefinitions withProperties set_Value Definitions set_Properties Name].
    rewrite registerDefinitions_app, <- app_assoc. reflexivity.
Qed.

Lemma Forall2_map_intro {X Y} (R : X -> Y -> Prop) (f : X -> Y) (l : list X) :
  (forall x, R x (f x)) -> Forall2 R l (List.map f l).
Proof.
  intros H. induction l; cbn; constructor; auto.
Qed.

Lemma memberDefinitions_names (schema : NamedSchema) (members : list Field) :
  List.map Name (memberDefinitions g schema members)
  = List.map (fun member => (Name schema ++ "_" ++ FieldGoName member)%string)
      (filter (mapped g schema) members).
Proof.
  induction members as [|member rest IH]; [reflexivity|].
  rewrite memberDefinitions_cons, map_app, IH.
  unfold memberDefinitions, memberDefinition, mapped. cbn [flat_map filter].
  now destruct (memberProperty g schema member).
Qed.

Lemma memberDefinitions_all_names (schema : NamedSchema) (oneofs : list Oneof) :
  List.map Name
    (flat_map (fun oneof => memberDefinitions g schema (OneofFields oneof)) oneofs)
  = List.map (fun member => (Name schema ++ "_" ++ FieldGoName member)%string)
      (filter (mapped g schema) (flat_map OneofFields oneofs)).
Proof.
  induction oneofs as [|oneof rest IH]; [reflexivity|].
  cbn [flat_map]. now rewrite filter_app, !map_app, memberDefinitions_names, IH.
Qed.

Lemma memberReferences_names (schema : NamedSchema) (members : list Field) :
  memberReferences g schema members
  = List.map (fun member =>
                localReference (Name schema ++ "_" ++ FieldGoName member))
      (filter (mapped g schema) members).
Proof.
  unfold memberReferences.
  rewrite <- (map_map Name localReference), memberDefinitions_names.
  now rewrite map_map.
Qed.

Lemma memberDefinitions_shape (schema : NamedSchema) (members : list Field)
    (url : string) :
  Schema_ (Value schema) = Some url ->
  Forall memberShape (memberDefinitions g schema members).
Proof.
  intros Hurl.
  induction members as [|member rest IH]; [constructor|].
  rewrite memberDefinitions_cons. apply Forall_app. split; [|exact IH].
  unfold memberDefinitions, memberDefinition, memberProperty. cbn [flat_map].
  destruct (namedSchemaForField g member schema true) as [[actual|] log|] eqn:E;
    cbn; constructor; [|constructor].
  apply namedSchemaForField_Some in E as (raw & version & _ & _ & ->).
  exists (buildKindProperty g (FieldName (FieldDesc member))),
    (labelField g member true version raw), (FieldName (FieldDesc member)).
  repeat split.
Qed.

End OneofGroups.

(** ** C4, C5, C10: the properties and definitions of oneof groups *)

Section OneofClaims.

Variable g : JSONSchemaGenerator.

(** C4, as stated, fails: the group [result] has one member, of the type
    [google.protobuf.Empty], and its union list holds the null type
    alone. *)
Lemma oneof_with_skipped_member :
  exists document,
    addOneofFieldsToSchema json07 [resultOneof] (bookDocument json07)
    = Done document []
    /\ Properties (Value document)
       = Some [MkNamedSchema "result" (unionNode [nullNode])]
    /\ length [nullNode] <> length (OneofFields resultOneof) + 1.
Proof.
  eexists. split; [reflexivity | split; [reflexivity | discriminate]].
Qed.

(** C4, amended: every oneof group adds exactly one property to the owning
    document; its union list holds the JSON null type first and then one
    local-definition reference per member that has a mapped shape, so N+1
    alternatives when N members have one; and each registered member
    definition has exactly the two properties [kind], a single-literal
    enumeration, and [value]. *)
Theorem oneof_union_shape (oneofs : list Oneof) (schema : NamedSchema)
    (url : string) (ps : list NamedSchema) :
  Schema_ (Value schema) = Some url ->
  Properties (Value schema) = Some ps ->
  exists schema' log props defs,
    addOneofFieldsToSchema g oneofs schema = Done schema' log
    /\ Properties (Value schema') = Some (ps ++ props)
    /\ Forall2 (fun oneof prop =>
                  exists refs,
                    OneOf (Value prop) = Some (nullNode :: refs)
                    /\ length refs
                       = length (filter (mapped g schema) (OneofFields oneof))
                    /\ Forall (fun r => exists definition,
                                   r = localReference definition) refs)
         oneofs props
    /\ Definitions (Value schema')
       = registerDefinitions (Definitions (Value schema)) defs
    /\ Forall memberShape defs.
Proof.
  intros Hurl Hps.
  destruct (addOneofFieldsToSchema_closed g oneofs schema url ps Hurl Hps) as (log & E).
  eexists. exists log, (List.map (oneofProperty g schema) oneofs).
  exists (flat_map (fun oneof => memberDefinitions g schema (OneofFields oneof)) oneofs).
  split; [exact E|]. split; [reflexivity|]. split; [|split; [reflexivity|]].
  - apply Forall2_map_intro. intros oneof.
    exists (memberReferences g schema (OneofFields oneof)).
    split; [reflexivity|]. rewrite memberReferences_names. split.
    + apply length_map.
    + apply Forall_forall. intros r Hr. apply in_map_iff in Hr as (member & <- & _).
      eexists; reflexivity.
  - apply Forall_flat_map, Forall_forall. intros oneof _.
    now apply (memberDefinitions_shape g schema _ url).
Qed.

(** C5, as stated, fails: the member declared as [email] on the document
    [Book] is registered, and referred to, as [Book_Email]. *)
Lemma member_definition_named_by_GoName :
  exists document,
    addOneofFieldsToSchema json07 [contactOneof] (bookDocument json07)
    = Done document []
    /\ option_map (List.map Name) (Definitions (Value document))
       = Some ["Book_Email"; "Book_Phone"]
    /\ Properties (Value document)
       = Some [MkNamedSchema "contact"
                 (unionNode [nullNode; localReference "Book_Email";
                             localReference "Book_Phone"])]
    /\ FieldName (FieldDesc emailField) = "email".
Proof.
  eexists. split; [vm_compute; reflexivity|].
  split; [vm_compute; reflexivity|]. split; reflexivity.
Qed.

(** C5, amended: the local definition registered for a oneof member, and
    the reference appended to the union list, are named by the name of the
    owning document, an underscore and the Go name of the member field (its
    camel-cased identifier in the generated Go code), not its declared
    name. *)
Theorem member_definition_names (oneofs : list Oneof) (schema : NamedSchema)
    (url : string) (ps : list NamedSchema) :
  Schema_ (Value schema) = Some url ->
  Properties (Value schema) = Some ps ->
  exists schema' log props defs,
    addOneofFieldsToSchema g oneofs schema = Done schema' log
    /\ Properties (Value schema') = Some (ps ++ props)
    /\ Forall2 (fun oneof prop =>
                  OneOf (Value prop)
                  = Some (nullNode
                            :: List.map
                                 (fun member =>
                                    localReference
                                      (Name schema ++ "_" ++ FieldGoName member))
                                 (filter (mapped g schema) (OneofFields oneof))))
         oneofs props
    /\ Definitions (Value schema')
       = registerDefinitions (Definitions (Value schema)) defs
    /\ List.map Name defs
       = List.map (fun member => (Name schema ++ "_" ++ FieldGoName member)%string)
           (filter (mapped g schema) (flat_map OneofFields oneofs)).
Proof.
  intros Hurl Hps.
  destruct (addOneofFieldsToSchema_closed g oneofs schema url ps Hurl Hps) as (log & E).
  eexists. exists log, (List.map (oneofProperty g schema) oneofs).
  exists (flat_map (fun oneof => memberDefinitions g schema (OneofFields oneof)) oneofs).
  split; [exact E|]. split; [reflexivity|]. split; [|split; [reflexivity|]].
  - apply Forall2_map_intro. intros oneof. cbn.
    now rewrite memberReferences_names.
  - apply memberDefinitions_all_names.
Qed.

(** C10: every property a oneof group adds to a document has the JSON null
    default, and a group none of whose members has a mapped shape still
    adds its property, with the null type as only alternative. *)
Theorem oneof_default_null (oneofs : list Oneof) (schema : NamedSchema)
    (url : string) (ps : list NamedSchema) :
  Schema_ (Value schema) = Some url ->
  Properties (Value schema) = Some ps ->
  exists schema' log props,
    addOneofFieldsToSchema g oneofs schema = Done schema' log
    /\ Properties (Value schema') = Some (ps ++ props)
    /\ Forall2 (fun oneof prop =>
                  Default (Value prop) = Some NullTag
                  /\ (filter (mapped g schema) (OneofFields oneof) = [] ->
                      OneOf (Value prop) = Some [nullNode]))
         oneofs props.
Proof.
  intros Hurl Hps.
  destruct (addOneofFieldsToSchema_closed g oneofs schema url ps Hurl Hps) as (log & E).
  eexists. exists log, (List.map (oneofProperty g schema) oneofs).
  split; [exact E|]. split; [reflexivity|].
  apply Forall2_map_intro. intros oneof. split; [reflexivity|].
  intros Hnone. cbn. now rewrite memberReferences_names, Hnone.
Qed.

End OneofClaims.

Lemma oneof_union_shape_witness :
  exists schema' log props defs,
    addOneofFieldsToSchema json07 [contactOneof; resultOneof] (bookDocument json07)
    = Done schema' log
    /\ Properties (Value schema') = Some ([] ++ props)
    /\ Forall2 (fun oneof prop =>
                  exists refs,
                    OneOf (Value prop) = Some (nullNode :: refs)
                    /\ length refs
                       = length (filter (mapped json07 (bookDocument json07))
                                   (OneofFields oneof))
                    /\ Forall (fun r => exists definition,
                                   r = localReference definition) refs)
         [contactOneof; resultOneof] props
    /\ Definitions (Value schema')
       = registerDefinitions (Definitions (Value (bookDocument json07))) defs
    /\ Forall memberShape defs.
Proof.
  apply (oneof_union_shape json07 [contactOneof; resultOneof] (bookDocument json07)
           draft07 []); reflexivity.
Defined.

Lemma member_definition_names_witness :
  exists schema' log props defs,
    addOneofFieldsToSchema json07 [contactOneof] (bookDocument json07)
    = Done schema' log
    /\ Properties (Value schema') = Some ([] ++ props)
    /\ Forall2 (fun oneof prop =>
                  OneOf (Value prop)
                  = Some (nullNode
                            :: List.map
                                 (fun member =>
                                    localReference
                                      (Name (bookDocument json07) ++ "_"
                                       ++ FieldGoName member))
                                 (filter (mapped json07 (bookDocument json07))
                                    (OneofFields oneof))))
         [contactOneof] props
    /\ Definitions (Value schema')
       = registerDefinitions (Definitions (Value (bookDocument json07))) defs
    /\ List.map Name defs
       = List.map (fun member =>
                     (Name (bookDocument json07) ++ "_" ++ FieldGoName member)%string)
           (filter (mapped json07 (bookDocument json07))
              (flat_map OneofFields [contactOneof])).
Proof.
  apply (member_definition_names json07 [contactOneof] (bookDocument json07)
           draft07 []); reflexivity.
Defined.

Lemma oneof_default_null_witness :
  exists schema' log props,
    addOneofFieldsToSchema json07 [resultOneof] (bookDocument json07)
    = Done schema' log
    /\ Properties (Value schema') = Some ([] ++ props)
    /\ Forall2 (fun oneof prop =>
                  Default (Value prop) = Some NullTag
                  /\ (filter (mapped json07 (bookDocument json07)) (OneofFields oneof)
                      = [] ->
                      OneOf (Value prop) = Some [nullNode]))
         [resultOneof] props.
Proof.
  apply (oneof_default_null json07 [resultOneof] (bookDocument json07) draft07 []);
    reflexivity.
Defined.

(** ** C9: the message schema builder *)

Section Builder.

Variable g : JSONSchemaGenerator.

Lemma plainProperties_header (s1 s2 : NamedSchema) (fields : list Field) :
  Schema_ (Value s1) = Schema_ (Value s2) ->
  plainProperties g s1 fields = plainProperties g s2 fields.
Proof.
  intros H. unfold plainProperties. apply flat_map_ext. intros field.
  now rewrite (namedSchemaForField_header g field s1 s2 false H).
Qed.

Lemma plainProperties_cons (schema : NamedSchema) (field : Field)
    (rest : list Field) :
  plainProperties g schema (field :: rest)
  = plainProperties g schema [field] ++ plainProperties g schema rest.
Proof.
  unfold plainProperties. cbn [flat_map]. now rewrite app_nil_r.
Qed.

(** One field: skipped inside a oneof group or without mapped shape,
    appended otherwise. *)
Lemma addField_step (schema : NamedSchema) (field : Field) (url : string)
    (ps : list NamedSchema) :
  Schema_ (Value schema) = Some url ->
  Properties (Value schema) = Some ps ->
  exists log,
    addField g schema field
    = Done (withProperties (ps ++ plainProperties g schema [field]) schema) log.
Proof.
  intros Hurl Hps. unfold addField, plainProperties. cbn [flat_map].
  destruct (InOneof field).
  - cbn [app]. rewrite (app_nil_r ps), (withProperties_same schema ps Hps).
    eexists; reflexivity.
  - destruct (namedSchemaForField_total g field schema false url Hurl)
      as ([namedSchema|] & log & ->); cbn [app bind].
    + rewrite Hps. cbn. eexists; reflexivity.
    + rewrite (app_nil_r ps), (withProperties_same schema ps Hps).
      eexists; reflexivity.
Qed.

(** The loop over the fields of a message. *)
Lemma addField_loop (fields : list Field) :
  forall (schema : NamedSchema) (url : string) (ps : list NamedSchema),
    Schema_ (Value schema) = Some url ->
    Properties (Value schema) = Some ps ->
    exists log,
      forRange (addField g) fields schema
      = Done (withProperties (ps ++ plainProperties g schema fields) schema) log.
Proof.
  induction fields as [|field rest IH]; intros schema url ps Hurl Hps.
  - cbn. rewrite app_nil_r, (withProperties_same schema ps Hps). eexists; reflexivity.
  - cbn [forRange].
    destruct (addField_step schema field url ps Hurl Hps) as (l1 & ->).
    pose (schema1 := withProperties (ps ++ plainProperties g schema [field]) schema).
    destruct (IH schema1 url (ps ++ plainProperties g schema [field]))
      as (l2 & E); [exact Hurl | reflexivity |].
    rewrite (plainProperties_header schema1 schema rest eq_refl) in E. subst schema1.
    cbn [bind]. rewrite E. eexists. f_equal.
    now rewrite <- app_assoc, (plainProperties_cons schema field rest).
Qed.

(** The fresh document of a message. *)
Lemma setupSchemaForMessage_fresh (schemaName comments : string) :
  let fresh := setupSchemaForMessage g schemaName comments in
  Name fresh = schemaName
  /\ Schema_ (Value fresh) = Some (Version (conf g))
  /\ Properties (Value fresh) = Some []
  /\ Definitions (Value fresh) = None.
Proof.
  unfold setupSchemaForMessage.
  destruct (negb (String.eqb (filterCommentString g comments true) ""));
    repeat split.
Qed.

(** The body of a message that is no map entry: oneof groups, then plain
    fields. *)
Lemma document_body (message : Message) :
  let fresh :=
    setupSchemaForMessage g (messageDefinitionName (Desc message)) (Leading message) in
  exists log,
    (schema <- addOneofFieldsToSchema g (Oneofs message) fresh ;;
     forRange (addField g) (Fields message) schema)
    = Done (ownDocument g message) log.
Proof.
  intros fresh.
  destruct (setupSchemaForMessage_fresh (messageDefinitionName (Desc message))
              (Leading message)) as (Hname & Hurl & Hps & Hdefs).
  fold fresh in Hname, Hurl, Hps, Hdefs.
  destruct (addOneofFieldsToSchema_closed g (Oneofs message) fresh _ [] Hurl Hps)
    as (l1 & ->).
  cbn [bind app].
  match goal with
  | |- context [forRange _ _ ?s] => pose (schema1 := s)
  end.
  destruct (addField_loop (Fields message) schema1 (Version (conf g))
              (List.map (oneofProperty g fresh) (Oneofs message)))
    as (l2 & E); [exact Hurl | reflexivity |].
  rewrite (plainProperties_header schema1 fresh _ eq_refl) in E. subst schema1.
  rewrite E. eexists. f_equal.
  unfold ownDocument. fold fresh. rewrite Hdefs. reflexivity.
Qed.

End Builder.

Section DepthFirst.

Variable g : JSONSchemaGenerator.

Lemma embedded_loop (messages : list Message) :
  Forall (appendsDocuments g) messages ->
  forall schemas, exists log,
    forRange
      (fun schemas subMessage =>
         subSchemas <- buildSchemaFromMessage g [] subMessage ;;
         ret (schemas ++ subSchemas))
      messages schemas
    = Done (schemas ++ flat_map (depthFirstDocuments g) messages) log.
Proof.
  induction 1 as [|subMessage rest Hsub _ IH]; intros schemas.
  - cbn. rewrite app_nil_r. eexists; reflexivity.
  - cbn [forRange flat_map].
    destruct (Hsub []) as (l1 & ->). cbn [bind ret app].
    destruct (IH (schemas ++ depthFirstDocuments g subMessage)) as (l2 & ->).
    rewrite <- app_assoc. eexists; reflexivity.
Qed.

Lemma buildSchemaFromMessage_closed (message : Message) : appendsDocuments g message.
Proof.
  induction message as [desc isMapEntry leading messages oneofs fields Hnested]
    using Message_induction.
  intros schemas. cbn [buildSchemaFromMessage depthFirstDocuments].
  destruct (embedded_loop messages Hnested schemas) as (l1 & ->).
  destruct isMapEntry.
  - cbn [bind ret]. rewrite (app_nil_r (flat_map (depthFirstDocuments g) messages)).
    eexists; reflexivity.
  - destruct (document_body g (MkMessage desc false leading messages oneofs fields))
      as (l2 & E).
    cbn [Desc Leading Oneofs Fields] in E.
    unfold bind in E |- *.
    destruct (addOneofFieldsToSchema g oneofs
                (setupSchemaForMessage g (messageDefinitionName desc) leading))
      as [schema la|]; [|discriminate].
    destruct (forRange (addField g) fields schema) as [document lb|]; [|discriminate].
    injection E as -> _. cbn. rewrite <- app_assoc. eexists; reflexivity.
Qed.

Lemma buildSchemasFromMessages_loop (messages : list Message) :
  forall schemas, exists log,
    forRange (buildSchemaFromMessage g) messages schemas
    = Done (schemas ++ flat_map (depthFirstDocuments g) messages) log.
Proof.
  induction messages as [|message rest IH]; intros schemas.
  - cbn. rewrite app_nil_r. eexists; reflexivity.
  - cbn [forRange flat_map].
    destruct (buildSchemaFromMessage_closed message schemas) as (l1 & ->).
    cbn [bind].
    destruct (IH (schemas ++ depthFirstDocuments g message)) as (l2 & ->).
    rewrite <- app_assoc. eexists; reflexivity.
Qed.

(** The call on the one-element list of a nested message is the loop body
    on an empty list. *)
Lemma buildSchemasFromMessages_singleton (subMessage : Message) :
  exists documents log,
    buildSchemasFromMessages g [subMessage] = Done documents log
    /\ buildSchemaFromMessage g [] subMessage = Done documents log.
Proof.
  unfold buildSchemasFromMessages. cbn [forRange].
  destruct (buildSchemaFromMessage_closed subMessage []) as (l & ->).
  cbn. rewrite app_nil_r. eexists; eexists; split; reflexivity.
Qed.

(** C9: the builder returns the documents in depth-first order.  The
    documents of a list of messages are those of each message in turn; for
    every message the documents of its nested messages come first and its
    own document, which a map entry does not have, comes last; and the
    properties of a document are those of its oneof groups followed by
    those of its plain fields. *)
Theorem buildSchemasFromMessages_depth_first (messages : list Message) :
  (exists log,
      buildSchemasFromMessages g messages
      = Done (flat_map (depthFirstDocuments g) messages) log)
  /\ (forall message,
         depthFirstDocuments g message
         = flat_map (depthFirstDocuments g) (Messages message)
           ++ (if IsMapEntry message then [] else [ownDocument g message]))
  /\ (forall message,
         let fresh :=
           setupSchemaForMessage g (messageDefinitionName (Desc message))
             (Leading message) in
         Properties (Value (ownDocument g message))
         = Some (List.map (oneofProperty g fresh) (Oneofs message)
                 ++ plainProperties g fresh (Fields message))).
Proof.
  split; [|split].
  - exact (buildSchemasFromMessages_loop messages []).
  - now intros [].
  - reflexivity.
Qed.

End DepthFirst.

(** A message [Outer] with the group [contact], a plain field [title], and
    a nested message [Inner]: the document of [Inner] comes first, and in
    the document of [Outer] the property [contact] precedes [title]. *)
Example depth_first_sample :
  let inner := MkMessage (Nested (TopLevel "lib" "Outer") "Inner") false "" [] [] [] in
  let outer :=
    MkMessage (TopLevel "lib" "Outer") false "" [inner] [contactOneof]
      [plainField "title" "Title" StringKind false; emailField; phoneField] in
  exists innerDocument outerDocument,
    buildSchemasFromMessages json07 [outer] = Done [innerDocument; outerDocument] []
    /\ Name innerDocument = "Outer_Inner"
    /\ Name outerDocument = "Outer"
    /\ option_map (List.map Name) (Properties (Value outerDocument))
       = Some ["contact"; "title"].
Proof.
  cbv zeta. eexists; eexists.
  split; [vm_compute; reflexivity|].
  split; [reflexivity | split; vm_compute; reflexivity].
Qed.

(** * Further properties *)

(** ** Names and comments *)

Section NamesAndComments.

Variable g : JSONSchemaGenerator.

Lemma contains_ReplaceByte (old new : ascii) (s : string) :
  old <> new -> strings.contains old (strings.ReplaceByte old new s) = false.
Proof.
  intros Hne. induction s as [|c s IH]; [reflexivity|]. cbn. rewrite IH, orb_false_r.
  destruct (Ascii.eqb_spec c old) as [->|Hc]; apply Ascii.eqb_neq; congruence.
Qed.

(** A document name holds no dot, whatever the message: the file name
    [<name>.json] has one extension. *)
Theorem messageDefinitionName_no_dot (desc : MessageDescriptor) :
  strings.contains dot (messageDefinitionName desc) = false.
Proof.
  unfold messageDefinitionName. now apply contains_ReplaceByte.
Qed.

(** Under a non-empty package the document name is the path of the message
    below the package (the names of the enclosing messages and its own,
    joined by dots) with every dot replaced by an underscore. *)
Theorem document_name_below_package (desc : MessageDescriptor) :
  Package desc <> "" ->
  FullName desc = (Package desc ++ "." ++ relativeName desc)%string
  /\ messageDefinitionName desc = strings.ReplaceByte "." "_" (relativeName desc).
Proof.
  intros Hpkg. split.
  - now apply FullName_relativeName.
  - now apply messageDefinitionName_relativeName.
Qed.

Lemma document_name_below_package_witness :
  FullName nested_Foo_Bar = (Package nested_Foo_Bar ++ "." ++ relativeName nested_Foo_Bar)%string
  /\ messageDefinitionName nested_Foo_Bar
     = strings.ReplaceByte "." "_" (relativeName nested_Foo_Bar).
Proof.
  apply (document_name_below_package nested_Foo_Bar). discriminate.
Defined.

Lemma rev_snoc (p : string) (c : ascii) :
  strings.rev (p ++ String c "") = String c (strings.rev p).
Proof.
  induction p as [|d p IH]; [reflexivity|]. cbn. now rewrite IH.
Qed.

Lemma last_byte (s : string) :
  s = "" \/ exists p c, s = (p ++ String c "")%string.
Proof.
  induction s as [|d s [->|(p & c & ->)]]; [now left | right..].
  - now exists "", d.
  - now exists (String d p), c.
Qed.

(** [NewJSONSchemaGenerator] leaves an empty base URL empty and makes any
    other end in a slash, adding one only when it is missing; it touches no
    other option, and applying it again changes nothing. *)
Theorem NewJSONSchemaGenerator_BaseURL (c : Configuration) :
  ((BaseURL c = "" /\ BaseURL (normalised c) = "")
   \/ (exists p, BaseURL (normalised c) = (p ++ "/")%string
                 /\ (BaseURL c = (p ++ "/")%string \/ BaseURL c = p)
                 /\ BaseURL c <> ""))
  /\ Version (normalised c) = Version c
  /\ Naming (normalised c) = Naming c
  /\ EnumType (normalised c) = EnumType c
  /\ normalised (normalised c) = normalised c.
Proof.
  unfold normalised, NewJSONSchemaGenerator. cbn [conf BaseURL Version Naming EnumType].
  destruct c as [baseURL version naming enumType]. cbn [BaseURL Version Naming EnumType].
  destruct (last_byte baseURL) as [->|(p & last & ->)].
  - cbn. split; [now left|]. repeat split.
  - rewrite rev_snoc.
    destruct (Ascii.eqb_spec last regexp.slash) as [->|Hlast]; cbn [negb].
    + rewrite rev_snoc. cbn. split; [|repeat split]. right. exists p.
      split; [reflexivity|]. split; [now left|]. now destruct p.
    + change "/"%string with (String regexp.slash "").
      rewrite rev_snoc. cbn. split; [|repeat split]. right.
      exists (p ++ String last "")%string.
      split; [reflexivity|]. split; [now right|]. now destruct p.
Qed.

(** *** Comments *)

Lemma contains_RemoveByte (c : ascii) (s : string) :
  strings.contains c (strings.RemoveByte c s) = false.
Proof.
  induction s as [|d s IH]; [reflexivity|]. cbn.
  destruct (Ascii.eqb_spec d c) as [->|Hd]; [exact IH|].
  cbn. rewrite IH, orb_false_r. now apply Ascii.eqb_neq.
Qed.

Lemma contains_RemoveByte_other (c d : ascii) (s : string) :
  strings.contains c s = false -> strings.contains c (strings.RemoveByte d s) = false.
Proof.
  induction s as [|e s IH]; [reflexivity|]. cbn. intros H.
  apply orb_false_iff in H as [He Hs].
  destruct (Ascii.eqb e d); [now apply IH|]. cbn. now rewrite He, IH.
Qed.

Lemma contains_removeLinterRules (c : ascii) (s : string) :
  forall skip,
    strings.contains c s = false ->
    strings.contains c (regexp.removeLinterRules skip s) = false.
Proof.
  induction s as [|d s IH]; intros skip H; [reflexivity|].
  cbn in H. apply orb_false_iff in H as [Hd Hs].
  cbn [regexp.removeLinterRules].
  destruct skip as [|k]; [|now apply IH].
  destruct (regexp.hasPrefix "(-- " (String d s)) as [rest|];
    [destruct (regexp.linterTail rest) as [n|]|];
    try (now apply IH); cbn; now rewrite Hd, IH.
Qed.

Lemma contains_rev (c : ascii) (s : string) :
  strings.contains c (strings.rev s) = strings.contains c s.
Proof.
  induction s as [|d s IH]; [reflexivity|]. cbn.
  rewrite contains_append, IH. cbn. now rewrite orb_false_r, orb_comm.
Qed.

(** Trimming leaves a suffix. *)
Lemma trimLeading_suffix (mirror : bool) (n : nat) :
  forall s, String.length s <= n ->
            exists p, s = (p ++ strings.trimLeading mirror s)%string.
Proof.
  induction n as [|n IH]; intros s Hlen.
  - destruct s; [now exists "" | cbn in Hlen; lia].
  - destruct s as [|a t1]; [now exists ""|]. cbn in Hlen.
    cbn [strings.trimLeading].
    destruct (strings.asciiSpace a).
    { destruct (IH t1) as (p & Hp); [lia|]. exists (String a p). cbn. now f_equal. }
    destruct t1 as [|b t2]; [now exists ""|].
    destruct (if mirror then strings.space2 b a else strings.space2 a b).
    { cbn in Hlen. destruct (IH t2) as (p & Hp); [lia|].
      exists (String a (String b p)). cbn. now do 2 f_equal. }
    destruct t2 as [|c t3]; [now exists ""|].
    destruct (if mirror then strings.space3 c b a else strings.space3 a b c).
    { cbn in Hlen. destruct (IH t3) as (p & Hp); [lia|].
      exists (String a (String b (String c p))). cbn. now do 3 f_equal. }
    now exists "".
Qed.

Lemma contains_trimLeading (c : ascii) (mirror : bool) (s : string) :
  strings.contains c s = false ->
  strings.contains c (strings.trimLeading mirror s) = false.
Proof.
  intros H.
  destruct (trimLeading_suffix mirror (String.length s) s (le_n _)) as (p & Hp).
  rewrite Hp, contains_append in H. now apply orb_false_iff in H.
Qed.

Lemma contains_TrimSpace (c : ascii) (s : string) :
  strings.contains c s = false -> strings.contains c (strings.TrimSpace s) = false.
Proof.
  intros H. unfold strings.TrimSpace.
  rewrite contains_rev. apply contains_trimLeading.
  rewrite contains_rev. now apply contains_trimLeading.
Qed.

(** With line breaks removed, as every caller asks, the filtered comment
    holds no line feed: a description is one line. *)
Theorem filterCommentString_one_line (c : string) :
  strings.contains regexp.newline (filterCommentString g c true) = false.
Proof.
  unfold filterCommentString.
  apply contains_TrimSpace, contains_removeLinterRules, contains_RemoveByte.
Qed.

End NamesAndComments.

Section LinterRules.

Variable g : JSONSchemaGenerator.

Lemma append_empty_r (s : string) : (s ++ "")%string = s.
Proof.
  induction s as [|c s IH]; [reflexivity | cbn; now rewrite IH].
Qed.

Lemma RemoveByte_append (c : ascii) (a b : string) :
  strings.RemoveByte c (a ++ b)
  = (strings.RemoveByte c a ++ strings.RemoveByte c b)%string.
Proof.
  induction a as [|d a IH]; [reflexivity|]. cbn.
  destruct (Ascii.eqb d c); [exact IH | cbn; now rewrite IH].
Qed.

Lemma removeLinterRules_prefix (p d : string) :
  strings.contains openParen p = false ->
  regexp.removeLinterRules 0 (p ++ d) = (p ++ regexp.removeLinterRules 0 d)%string.
Proof.
  induction p as [|c p IH]; intros H; [reflexivity|].
  cbn in H. apply orb_false_iff in H as [Hc Hp].
  cbn [append regexp.removeLinterRules regexp.hasPrefix].
  rewrite Ascii.eqb_sym in Hc. unfold openParen in Hc. rewrite Hc.
  now rewrite (IH Hp).
Qed.

Lemma removeLinterRules_plain (s : string) :
  strings.contains openParen s = false -> regexp.removeLinterRules 0 s = s.
Proof.
  intros H. rewrite <- (append_empty_r s) at 1.
  rewrite (removeLinterRules_prefix s "" H). apply append_empty_r.
Qed.

Lemma linterTail_closing (y : string) :
  strings.contains regexp.newline y = false ->
  regexp.linterTail (y ++ " --)") = Some (String.length y + 4).
Proof.
  induction y as [|c y IH]; intros H; [reflexivity|].
  cbn [strings.contains] in H. apply orb_false_iff in H as [Hc Hy].
  cbn [append regexp.linterTail String.length]. cbv zeta.
  now rewrite Hc, (IH Hy).
Qed.

Lemma removeLinterRules_skip_all (s : string) :
  forall extra, regexp.removeLinterRules (String.length s + extra) s = "".
Proof.
  induction s as [|c s IH]; intros extra; [reflexivity|]. cbn. apply IH.
Qed.

Lemma removeLinterRules_directive (y : string) :
  strings.contains regexp.newline y = false ->
  regexp.removeLinterRules 0 ("(-- " ++ y ++ " --)") = "".
Proof.
  intros H. cbn [append regexp.removeLinterRules regexp.hasPrefix Ascii.eqb Bool.eqb].
  rewrite (linterTail_closing y H).
  replace (3 + (String.length y + 4))
    with (String.length ("-- " ++ y ++ " --)") + 0)
    by (cbn; rewrite length_append; cbn; lia).
  apply removeLinterRules_skip_all.
Qed.

(** A linter directive that ends a comment is dropped, whatever the
    directive holds: when the text before it holds no opening parenthesis,
    the comment is filtered like that text alone.  A comment that is only a
    directive yields no description. *)
Theorem filterCommentString_drops_linter_rule (text rule : string) :
  strings.contains openParen text = false ->
  filterCommentString g (withLinterRule text rule) true
  = filterCommentString g text true.
Proof.
  intros Htext. unfold filterCommentString, withLinterRule.
  rewrite RemoveByte_append.
  change ("(-- " ++ rule ++ " --)")%string
    with ("(-- " ++ (rule ++ " --)"))%string.
  rewrite (RemoveByte_append _ "(-- "), (RemoveByte_append _ rule).
  change (strings.RemoveByte regexp.newline "(-- ") with "(-- "%string.
  change (strings.RemoveByte regexp.newline " --)") with " --)"%string.
  assert (Hclean : strings.contains openParen (strings.RemoveByte regexp.newline text)
                   = false) by now apply contains_RemoveByte_other.
  rewrite (removeLinterRules_prefix _ _ Hclean).
  rewrite removeLinterRules_directive by apply contains_RemoveByte.
  now rewrite append_empty_r, (removeLinterRules_plain _ Hclean).
Qed.

End LinterRules.

Lemma filterCommentString_drops_linter_rule_witness :
  filterCommentString json07 (withLinterRule " The title. " "api-linter: off") true
  = filterCommentString json07 " The title. " true.
Proof.
  apply (filterCommentString_drops_linter_rule json07 " The title. " "api-linter: off").
  reflexivity.
Defined.

(** ** The draft version *)

Section DraftVersion.

Lemma notSlashes_run (version tail : string) :
  strings.contains regexp.slash version = false ->
  regexp.notSlashes (version ++ String regexp.slash tail)
  = (version, String regexp.slash tail).
Proof.
  induction version as [|c v IH]; intros H; [reflexivity|].
  cbn [strings.contains] in H. apply orb_false_iff in H as [Hc Hv].
  cbn [append regexp.notSlashes]. now rewrite Hc, (IH Hv).
Qed.

Lemma schemaVersionAt_draftURL (secure dash : bool) (version rest : string) :
  regexp.schemaVersionAt (draftURL secure dash version rest)
  = let '(group, s6) :=
      regexp.notSlashes (version ++ String regexp.slash ("schema" ++ rest)) in
    match group with
    | EmptyString => None
    | _ => regexp.bindO (regexp.hasPrefix "/schema" s6) (fun _ => Some group)
    end.
Proof.
  destruct secure, dash; reflexivity.
Qed.

Lemma FindSchemaVersionSubmatch_here (s group : string) :
  regexp.schemaVersionAt s = Some group ->
  regexp.FindSchemaVersionSubmatch s = [EmptyString; group].
Proof.
  intros H. destruct s; cbn [regexp.FindSchemaVersionSubmatch]; now rewrite H.
Qed.

(** [getSchemaVersion] reads the draft out of a schema identifier: for
    [http] or [https], [draft-] or [draft/], a non-empty draft without
    slash, and whatever follows [/schema], it returns the draft. *)
Theorem getSchemaVersion_draft (schema : Schema) (secure dash : bool)
    (version rest : string) :
  version <> "" ->
  strings.contains regexp.slash version = false ->
  Schema_ schema = Some (draftURL secure dash version rest) ->
  getSchemaVersion schema = Done version [].
Proof.
  intros Hne Hslash Hurl. unfold getSchemaVersion. rewrite Hurl.
  cbn [deref bind ret app].
  rewrite (FindSchemaVersionSubmatch_here _ version); [reflexivity|].
  rewrite schemaVersionAt_draftURL, (notSlashes_run _ _ Hslash).
  destruct version; [congruence | reflexivity].
Qed.

End DraftVersion.

Lemma getSchemaVersion_draft_witness :
  getSchemaVersion (Value (bookDocument json07)) = Done "07" [].
Proof.
  apply (getSchemaVersion_draft (Value (bookDocument json07)) false true "07" "#").
  - discriminate.
  - reflexivity.
  - reflexivity.
Defined.

(** ** C6: readOnly and writeOnly *)

Section Behaviours.

Variable g : JSONSchemaGenerator.

Lemma getSchemaVersion_configured (schema : Schema) :
  Schema_ schema = Some (Version (conf g)) ->
  getSchemaVersion schema = Done (configuredDraft g) [].
Proof.
  intros H. unfold getSchemaVersion, configuredDraft. rewrite H. cbn [deref bind ret].
  now destruct (regexp.FindSchemaVersionSubmatch (Version (conf g)))
    as [|whole [|version [|more rest]]].
Qed.

Lemma configuredDraft_draftURL (secure dash : bool) (version rest : string) :
  version <> ""%string ->
  strings.contains regexp.slash version = false ->
  Version (conf g) = draftURL secure dash version rest ->
  configuredDraft g = version.
Proof.
  intros Hne Hslash Hurl. unfold configuredDraft. rewrite Hurl.
  rewrite (FindSchemaVersionSubmatch_here _ version); [reflexivity|].
  rewrite schemaVersionAt_draftURL, (notSlashes_run _ _ Hslash).
  destruct version; [congruence | reflexivity].
Qed.

(** C6, as stated, fails: the configured version string of draft 04,
    [http://json-schema.org/draft-04/schema#], is lexically at least
    ["07"] and the field [id] is annotated output-only, yet its node has no
    [readOnly]. *)
Lemma readOnly_absent_under_draft04 :
  String.leb "07" (Version (conf json04)) = true
  /\ In FieldBehavior_OUTPUT_ONLY (Behavior (FieldDesc outputOnlyField))
  /\ exists node,
      namedSchemaForField json04 outputOnlyField (bookDocument json04) false
      = Done (Some (MkNamedSchema "id" node)) []
      /\ ReadOnly node = None.
Proof.
  split; [reflexivity|]. split; [now left|].
  eexists. split; reflexivity.
Qed.

(** C6, amended: on the node of a field of a document that carries the
    configured schema identifier, [readOnly] appears exactly when the draft
    named in that identifier is lexically at least ["07"] and the field is
    annotated output-only, and [writeOnly] likewise for input-only.  The
    draft is what the pattern of the generator captures in the identifier
    (empty without a match): for an identifier made of [http] or [https],
    [://json-schema.org/draft], a dash or a slash, a non-empty draft
    without slash and [/schema], it is that draft. *)
Theorem readOnly_writeOnly_iff (field : Field) (schema : NamedSchema)
    (isValueProp : bool) (ns : NamedSchema) (log : list string) :
  Schema_ (Value schema) = Some (Version (conf g)) ->
  namedSchemaForField g field schema isValueProp = Done (Some ns) log ->
  (ReadOnly (Value ns) <> None
   <-> String.leb "07" (configuredDraft g) = true
       /\ In FieldBehavior_OUTPUT_ONLY (Behavior (FieldDesc field)))
  /\ (WriteOnly (Value ns) <> None
      <-> String.leb "07" (configuredDraft g) = true
          /\ In FieldBehavior_INPUT_ONLY (Behavior (FieldDesc field)))
  /\ (forall secure dash version rest,
         version <> ""%string ->
         strings.contains regexp.slash version = false ->
         Version (conf g) = draftURL secure dash version rest ->
         configuredDraft g = version).
Proof.
  intros Hschema H.
  apply namedSchemaForField_Some in H as (raw & version & Hraw & Hv & ->).
  rewrite (getSchemaVersion_configured _ Hschema) in Hv. injection Hv as <-.
  apply schemaOrReferenceForField_unlabelled in Hraw as (_ & _ & Hr & Hw).
  rewrite labelField_ReadOnly, labelField_WriteOnly.
  split; [|split].
  - destruct (String.leb "07" (configuredDraft g)).
    + rewrite applyFieldBehavior_ReadOnly, Hr. intuition congruence.
    + rewrite Hr. intuition congruence.
  - destruct (String.leb "07" (configuredDraft g)).
    + rewrite applyFieldBehavior_WriteOnly, Hw. intuition congruence.
    + rewrite Hw. intuition congruence.
  - intros secure dash version rest. apply configuredDraft_draftURL.
Qed.

End Behaviours.

Lemma readOnly_writeOnly_iff_witness :
  (ReadOnly (Value (MkNamedSchema "id"
                      (set_Title "id"
                         (set_ReadOnly true
                            (set_Default (StringValue "")
                               (set_Type (TypeString "string") empty)))))) <> None
   <-> String.leb "07" (configuredDraft json07) = true
       /\ In FieldBehavior_OUTPUT_ONLY (Behavior (FieldDesc outputOnlyField)))
  /\ (WriteOnly (Value (MkNamedSchema "id"
                      (set_Title "id"
                         (set_ReadOnly true
                            (set_Default (StringValue "")
                               (set_Type (TypeString "string") empty)))))) <> None
      <-> String.leb "07" (configuredDraft json07) = true
          /\ In FieldBehavior_INPUT_ONLY (Behavior (FieldDesc outputOnlyField)))
  /\ (forall secure dash version rest,
         version <> ""%string ->
         strings.contains regexp.slash version = false ->
         Version (conf json07) = draftURL secure dash version rest ->
         configuredDraft json07 = version).
Proof.
  apply (readOnly_writeOnly_iff json07 outputOnlyField (bookDocument json07) false
           _ []); reflexivity.
Defined.

(** ** More on the type mapper *)

Section TypeMapperShapes.

Variable g : JSONSchemaGenerator.

Lemma enumSchema_typed (values : list string) :
  Ref (enumSchema g values) = None /\ Type_ (enumSchema g values) <> None.
Proof.
  unfold enumSchema.
  destruct (EnumType (conf g)) as [t|]; [destruct (String.eqb t typeString)|];
    try (split; [reflexivity | cbn; discriminate]).
  rewrite (enumValuesLoop_closed values 0 _ []) by reflexivity.
  destruct values; split; (reflexivity || (cbn; discriminate)).
Qed.

Lemma schemaOrReferenceForType_shape (desc : MessageDescriptor) (node : Schema) :
  schemaOrReferenceForType g desc = Some node ->
  (exists ref, node = set_Ref ref empty)
  \/ (Ref node = None /\ Type_ node <> None).
Proof.
  unfold schemaOrReferenceForType.
  repeat match goal with
         | |- context [if ?c then _ else _] => destruct c
         end;
    intros [= <-];
    try (right; split; [reflexivity | cbn; discriminate]).
  left. eexists; reflexivity.
Qed.

(** A node of the type mapper is either a bare reference, with no other
    keyword set, or an inline shape with a type and no reference. *)
Theorem reference_or_inline_shape (field : FieldDescriptor)
    (defs : option (list NamedSchema)) (node : Schema) (log : list string) :
  schemaOrReferenceForField g field defs = Done (Some node) log ->
  (exists ref, node = set_Ref ref empty)
  \/ (Ref node = None /\ Type_ node <> None).
Proof.
  assert (Hinline : forall s t, Ref s = None -> Type_ s = Some t ->
                                (exists ref, s = set_Ref ref empty)
                                \/ (Ref s = None /\ Type_ s <> None)).
  { intros s t Hr Ht. right. split; [exact Hr | congruence]. }
  destruct field as [n j kind isList [v|] b]; cbn [schemaOrReferenceForField].
  - intros H. apply bind_Done in H as (a & l1 & l2 & _ & H & _).
    injection H as <- _. now eapply Hinline.
  - destruct kind; cbn;
      try (destruct isList; intros [= <- _]; eapply Hinline; reflexivity).
    + destruct isList; intros [= <- _]; [eapply Hinline; reflexivity|].
      right. apply enumSchema_typed.
    + destruct (schemaOrReferenceForType g message) as [ks|] eqn:E; cbn.
      * destruct isList; intros [= <- _]; [eapply Hinline; reflexivity|].
        now apply schemaOrReferenceForType_shape in E.
      * discriminate.
Qed.

End TypeMapperShapes.

Lemma reference_or_inline_shape_witness :
  (exists ref, set_Ref "Author.json" empty = set_Ref ref empty)
  \/ (Ref (set_Ref "Author.json" empty) = None
      /\ Type_ (set_Ref "Author.json" empty) <> None).
Proof.
  apply (reference_or_inline_shape json07 (FieldDesc authorField) None
           (set_Ref "Author.json" empty) []).
  reflexivity.
Defined.

Section TypeMapperCases.

Variable g : JSONSchemaGenerator.

Lemma schemaOrReferenceForType_None (desc : MessageDescriptor) :
  schemaOrReferenceForType g desc = None
  <-> wellKnownName desc = ".google.protobuf.Empty"%string.
Proof.
  unfold schemaOrReferenceForType, wellKnownName. cbv zeta.
  repeat match goal with
         | |- context [if String.eqb ?a ?b then _ else _] =>
             destruct (String.eqb_spec a b)
         end;
    split; intros H; try discriminate; try congruence.
Qed.

(** A field of a message type that is no map gets no node, and no
    diagnostic, exactly when the type is [google.protobuf.Empty]; this
    holds for a repeated field as well. *)
Theorem empty_type_omitted (field : Field) (message : MessageDescriptor)
    (schema : NamedSchema) (isValueProp : bool) :
  FieldKind (FieldDesc field) = MessageKind message ->
  MapValue (FieldDesc field) = None ->
  namedSchemaForField g field schema isValueProp = Done None []
  <-> wellKnownName message = ".google.protobuf.Empty"%string.
Proof.
  destruct field as [[n j kind isList mv b] goName leading inOneof].
  cbn [FieldDesc FieldKind MapValue]. intros -> ->.
  rewrite <- schemaOrReferenceForType_None.
  unfold namedSchemaForField. cbn [FieldDesc schemaOrReferenceForField].
  destruct (schemaOrReferenceForType g message) as [ks|]; cbn.
  - pose proof (getSchemaVersion_cases (Value schema)) as Hv.
    destruct (Schema_ (Value schema)); [destruct Hv as [version Hv]|];
      destruct isList; rewrite Hv; cbn; split; discriminate.
  - split; reflexivity.
Qed.

(** A map field always has a node: an object whose [additionalProperties]
    is whatever the type mapper returns for the value field, be it
    nothing. *)
Theorem map_field_is_object (field value : FieldDescriptor)
    (defs : option (list NamedSchema)) :
  MapValue field = Some value ->
  exists node valueSchema log,
    schemaOrReferenceForField g field defs = Done (Some node) log
    /\ schemaOrReferenceForField g value defs = Done valueSchema log
    /\ node = set_AdditionalProperties (MkSchemaOrBoolean valueSchema)
                (set_Type (TypeString "object") empty).
Proof.
  destruct field as [n j kind isList mv b]. cbn [MapValue]. intros ->.
  cbn [schemaOrReferenceForField].
  destruct (schemaOrReferenceForField_total g value defs) as (r & log & E & _).
  rewrite E. cbn. rewrite app_nil_r. eexists; eexists; eexists.
  split; [reflexivity | split; reflexivity].
Qed.

(** A repeated field that is no map and no group is the array of what the
    field maps to when singular, and is omitted exactly when that is
    omitted. *)
Theorem repeated_field_is_array (n j : string) (kind : Kind)
    (b : list FieldBehavior) (defs : option (list NamedSchema)) :
  (forall message, kind <> GroupKind message) ->
  exists base log,
    schemaOrReferenceForField g (MkFieldDescriptor n j kind false None b) defs
    = Done base log
    /\ schemaOrReferenceForField g (MkFieldDescriptor n j kind true None b) defs
       = Done (option_map (fun shape => arrayOf (Some shape)) base) log.
Proof.
  intros Hgroup. cbn [schemaOrReferenceForField].
  destruct kind; cbn;
    try (eexists; eexists; split; reflexivity).
  - destruct (schemaOrReferenceForType g message); cbn;
      eexists; eexists; split; reflexivity.
  - now destruct (Hgroup message).
Qed.

(** The type mapper never panics, and it logs one line, naming the group,
    for a group field (or a map of groups) and nothing for any other
    field. *)
Theorem schemaOrReferenceForField_diagnostics (field : FieldDescriptor)
    (defs : option (list NamedSchema)) :
  exists node,
    schemaOrReferenceForField g field defs = Done node (diagnostics field).
Proof.
  induction field as [n j kind isList b | n j kind isList v b IH]
    using FieldDescriptor_induction.
  - cbn [schemaOrReferenceForField diagnostics].
    destruct kind; cbn; try (destruct isList; eexists; reflexivity).
    destruct (schemaOrReferenceForType g message); cbn;
      try destruct isList; eexists; reflexivity.
  - cbn [schemaOrReferenceForField diagnostics].
    destruct IH as (r & ->). cbn. rewrite app_nil_r. eexists; reflexivity.
Qed.

(** The property of a field is named [value] inside a oneof member
    definition and by the naming convention elsewhere, and a node that is
    no reference has that name as title. *)
Theorem field_property_name (field : Field) (schema : NamedSchema)
    (isValueProp : bool) (ns : NamedSchema) (log : list string) :
  namedSchemaForField g field schema isValueProp = Done (Some ns) log ->
  Name ns = (if isValueProp then "value"%string else formatFieldName g field)
  /\ (Ref (Value ns) = None -> Title (Value ns) = Some (Name ns)).
Proof.
  intros H.
  apply namedSchemaForField_Some in H as (raw & version & _ & _ & ->).
  unfold labelField. cbn [Name Value].
  split; [now destruct isValueProp|].
  set (behaved := if String.leb "07" version
                  then applyFieldBehavior (Behavior (FieldDesc field)) raw else raw).
  destruct (negb (String.eqb (filterCommentString g (FieldLeading field) true) ""));
    destruct (Ref behaved) eqn:R; cbn; rewrite ?R; intros Href;
    (discriminate || reflexivity).
Qed.

(** On a document without schema identifier [namedSchemaForField] panics
    for a field that has a node, and only then. *)
Theorem namedSchemaForField_without_identifier (field : Field)
    (schema : NamedSchema) (isValueProp : bool) :
  Schema_ (Value schema) = None ->
  namedSchemaForField g field schema isValueProp = Panic
  <-> exists node log,
      schemaOrReferenceForField g (FieldDesc field) None = Done (Some node) log.
Proof.
  intros Hnil. unfold namedSchemaForField.
  destruct (schemaOrReferenceForField_total g (FieldDesc field)
              (Definitions (Value schema))) as ([raw|] & l & -> & ->); cbn.
  - unfold getSchemaVersion. rewrite Hnil. cbn. split; [|reflexivity].
    intros _. now exists raw, l.
  - split; [discriminate|]. intros (node & log & [=]).
Qed.

End TypeMapperCases.

Lemma empty_type_omitted_witness :
  namedSchemaForField json07 nothingField (bookDocument json07) true = Done None []
  <-> wellKnownName (TopLevel "google.protobuf" "Empty") = ".google.protobuf.Empty"%string.
Proof.
  apply (empty_type_omitted json07 nothingField (TopLevel "google.protobuf" "Empty")
           (bookDocument json07) true); reflexivity.
Defined.

Lemma map_field_is_object_witness :
  exists node valueSchema log,
    schemaOrReferenceForField json07 emptyValuedMap None = Done (Some node) log
    /\ schemaOrReferenceForField json07 (FieldDesc nothingField) None
       = Done valueSchema log
    /\ node = set_AdditionalProperties (MkSchemaOrBoolean valueSchema)
                (set_Type (TypeString "object") empty).
Proof.
  apply (map_field_is_object json07 emptyValuedMap (FieldDesc nothingField) None).
  reflexivity.
Defined.

Lemma repeated_field_is_array_witness :
  exists base log,
    schemaOrReferenceForField json07
      (MkFieldDescriptor "tags" "tags" StringKind false None []) None
    = Done base log
    /\ schemaOrReferenceForField json07
         (MkFieldDescriptor "tags" "tags" StringKind true None []) None
       = Done (option_map (fun shape => arrayOf (Some shape)) base) log.
Proof.
  apply (repeated_field_is_array json07 "tags" "tags" StringKind [] None).
  intros message. discriminate.
Defined.

Lemma field_property_name_witness :
  Name (MkNamedSchema "author"
          (set_Description "The author of the book." (set_Ref "Author.json" empty)))
  = (if false then "value"%string else formatFieldName json07 authorField)
  /\ (Ref (Value (MkNamedSchema "author"
                    (set_Description "The author of the book."
                       (set_Ref "Author.json" empty)))) = None ->
      Title (Value (MkNamedSchema "author"
                      (set_Description "The author of the book."
                         (set_Ref "Author.json" empty))))
      = Some (Name (MkNamedSchema "author"
                      (set_Description "The author of the book."
                         (set_Ref "Author.json" empty))))).
Proof.
  apply (field_property_name json07 authorField (bookDocument json07) false _ []).
  reflexivity.
Defined.

Lemma namedSchemaForField_without_identifier_witness :
  namedSchemaForField json07 emailField (MkNamedSchema "Book" empty) true = Panic
  <-> exists node log,
      schemaOrReferenceForField json07 (FieldDesc emailField) None
      = Done (Some node) log.
Proof.
  apply (namedSchemaForField_without_identifier json07 emailField
           (MkNamedSchema "Book" empty) true).
  reflexivity.
Defined.

(** ** More on oneof groups and documents *)

Section Discriminators.

Variable g : JSONSchemaGenerator.

Lemma memberDefinitions_discriminate (schema : NamedSchema) (members : list Field) :
  Forall2 (discriminates g schema)
    (filter (mapped g schema) members) (memberDefinitions g schema members).
Proof.
  induction members as [|member rest IH]; [constructor|].
  rewrite memberDefinitions_cons.
  unfold memberDefinitions at 1. cbn [flat_map filter].
  unfold mapped, memberDefinition.
  destruct (memberProperty g schema member) as [value|] eqn:E; [|exact IH].
  cbn [app]. constructor; [|exact IH].
  exists (buildKindProperty g (FieldName (FieldDesc member))), value.
  repeat split; assumption.
Qed.

(** Each definition registered for a oneof member is an object titled by
    its own name; its discriminator [kind] is a string with the declared
    name of the member as only literal and as default (while the definition
    is named after the Go name), and its second property is the value
    property of the member. *)
Theorem member_discriminator (oneofs : list Oneof) (schema : NamedSchema)
    (url : string) (ps : list NamedSchema) :
  Schema_ (Value schema) = Some url ->
  Properties (Value schema) = Some ps ->
  exists schema' log defs,
    addOneofFieldsToSchema g oneofs schema = Done schema' log
    /\ Definitions (Value schema')
       = registerDefinitions (Definitions (Value schema)) defs
    /\ Forall2 (discriminates g schema)
         (filter (mapped g schema) (flat_map OneofFields oneofs)) defs.
Proof.
  intros Hurl Hps.
  destruct (addOneofFieldsToSchema_closed g oneofs schema url ps Hurl Hps) as (log & E).
  eexists. exists log.
  exists (flat_map (fun oneof => memberDefinitions g schema (OneofFields oneof)) oneofs).
  split; [exact E|]. split; [reflexivity|].
  clear E. induction oneofs as [|oneof rest IH]; [constructor|].
  cbn [flat_map]. rewrite filter_app. apply Forall2_app; [|exact IH].
  apply memberDefinitions_discriminate.
Qed.

End Discriminators.

Lemma member_discriminator_witness :
  exists schema' log defs,
    addOneofFieldsToSchema json07 [contactOneof] (bookDocument json07)
    = Done schema' log
    /\ Definitions (Value schema')
       = registerDefinitions (Definitions (Value (bookDocument json07))) defs
    /\ Forall2 (discriminates json07 (bookDocument json07))
         (filter (mapped json07 (bookDocument json07))
            (flat_map OneofFields [contactOneof])) defs.
Proof.
  apply (member_discriminator json07 [contactOneof] (bookDocument json07) draft07 []);
    reflexivity.
Defined.

Section Documents.

Variable g : JSONSchemaGenerator.

Lemma ownDocument_head (message : Message) : documentHead g (ownDocument g message).
Proof.
  unfold documentHead, ownDocument, setupSchemaForMessage.
  destruct (negb (String.eqb
                    (filterCommentString g (Leading message) true) ""));
    cbn; repeat split; discriminate.
Qed.

Lemma ownDocument_Name (message : Message) :
  Name (ownDocument g message) = messageDefinitionName (Desc message).
Proof.
  unfold ownDocument, setupSchemaForMessage.
  now destruct (negb (String.eqb
                        (filterCommentString g (Leading message) true) "")).
Qed.

Lemma depthFirstDocuments_head (message : Message) :
  Forall (documentHead g) (depthFirstDocuments g message).
Proof.
  induction message as [desc isMapEntry leading messages oneofs fields Hnested]
    using Message_induction.
  cbn [depthFirstDocuments]. apply Forall_app. split.
  - apply Forall_flat_map. exact Hnested.
  - destruct isMapEntry; constructor; [apply ownDocument_head | constructor].
Qed.

(** The builder never panics, and every document it returns has the
    configured schema identifier, the id made of the base URL, its name and
    [.json], the type object, its name as title, a properties list and no
    reference. *)
Theorem buildSchemasFromMessages_heads (messages : list Message) :
  exists documents log,
    buildSchemasFromMessages g messages = Done documents log
    /\ Forall (documentHead g) documents.
Proof.
  destruct (buildSchemasFromMessages_loop g messages []) as (log & E).
  eexists; exists log. split; [exact E|].
  cbn [app]. apply Forall_flat_map, Forall_forall. intros message _.
  apply depthFirstDocuments_head.
Qed.

Lemma toUpper_upper (c : ascii) :
  strings.isUpper c = true -> strings.ToUpper1 c = String c "".
Proof.
  unfold strings.isUpper, strings.ToUpper1, strings.isASCII, strings.isLower.
  intros H. apply andb_true_iff in H as [H1 H2].
  apply Nat.leb_le in H1, H2.
  replace (nat_of_ascii c <? 128) with true by (symmetry; apply Nat.ltb_lt; lia).
  replace (97 <=? nat_of_ascii c) with false by (symmetry; apply Nat.leb_gt; lia).
  reflexivity.
Qed.

Lemma keepsName_format (name : string) :
  keepsName g name -> formatMessageNameString g name = name.
Proof.
  unfold formatMessageNameString.
  intros [Hproto | (first & rest & -> & Hrest & Hupper)].
  - now rewrite Hproto.
  - destruct (String.eqb (Naming (conf g)) "proto"); [reflexivity|].
    destruct rest as [|second rest]; [congruence|].
    now rewrite (toUpper_upper first Hupper).
Qed.

(** Where the naming convention leaves the name of a message as it is
    (under [proto], or for a name of two bytes or more with an upper-case
    first letter), the reference emitted for a field of that message type
    is the name of the document the builder makes for the message,
    followed by [.json]. *)
Theorem reference_names_document (message : Message) (node : Schema) :
  keepsName g (messageDefinitionName (Desc message)) ->
  IsMapEntry message = false ->
  schemaOrReferenceForType g (Desc message) = Some node ->
  Ref node <> None ->
  exists nested document log,
    buildSchemasFromMessages g [message] = Done (nested ++ [document]) log
    /\ Ref node = Some (Name document ++ ".json")%string.
Proof.
  intros Hkeep Hentry Hnode Href.
  destruct (buildSchemasFromMessages_loop g [message] []) as (log & E).
  exists (flat_map (depthFirstDocuments g) (Messages message)),
    (ownDocument g message), log.
  split.
  - unfold buildSchemasFromMessages. rewrite E.
    destruct message as [desc isMapEntry leading messages oneofs fields].
    cbn [IsMapEntry] in Hentry. subst isMapEntry.
    cbn [app flat_map depthFirstDocuments Messages]. now rewrite app_nil_r.
  - rewrite ownDocument_Name.
    apply (reference_resolves g (Desc message) node); auto.
    now apply keepsName_format.
Qed.

End Documents.

Lemma reference_names_document_witness :
  exists nested document log,
    buildSchemasFromMessages json07 [authorMessage] = Done (nested ++ [document]) log
    /\ Ref (set_Ref "Author.json" empty) = Some (Name document ++ ".json")%string.
Proof.
  apply (reference_names_document json07 authorMessage (set_Ref "Author.json" empty)).
  - right. exists "A"%char, "uthor"%string.
    split; [reflexivity | split; [discriminate | reflexivity]].
  - reflexivity.
  - reflexivity.
  - discriminate.
Defined.

(** ** Trimmed comments, descriptions and file names *)

Section Trimmed.

Variable g : JSONSchemaGenerator.

Lemma rev_append (a b : string) :
  strings.rev (a ++ b) = (strings.rev b ++ strings.rev a)%string.
Proof.
  induction a as [|c a IH]; cbn.
  - now rewrite append_empty_r.
  - now rewrite IH, append_assoc.
Qed.

Lemma rev_involutive (s : string) : strings.rev (strings.rev s) = s.
Proof.
  induction s as [|c s IH]; [reflexivity|]. cbn. now rewrite rev_snoc, IH.
Qed.

Lemma trimLeading_clean (mirror : bool) (n : nat) :
  forall s, String.length s <= n ->
            startsWithSpace (strings.trimLeading mirror s) = false.
Proof.
  induction n as [|n IH]; intros s Hlen.
  - destruct s; [reflexivity | cbn in Hlen; lia].
  - destruct s as [|a t1]; [reflexivity|]. cbn in Hlen.
    cbn [strings.trimLeading].
    destruct (strings.asciiSpace a) eqn:Ha; [apply IH; lia|].
    destruct t1 as [|b t2]; [exact Ha|].
    destruct (if mirror then strings.space2 b a else strings.space2 a b);
      [cbn in Hlen; apply IH; lia|].
    destruct t2 as [|c t3]; [exact Ha|].
    destruct (if mirror then strings.space3 c b a else strings.space3 a b c);
      [cbn in Hlen; apply IH; lia | exact Ha].
Qed.

Lemma startsWithSpace_prefix (a b : string) :
  a <> ""%string -> startsWithSpace (a ++ b) = startsWithSpace a.
Proof.
  destruct a; [congruence | reflexivity].
Qed.

Lemma TrimSpace_trimmed (s : string) :
  startsWithSpace (strings.TrimSpace s) = false
  /\ endsWithSpace (strings.TrimSpace s) = false.
Proof.
  unfold endsWithSpace, strings.TrimSpace.
  set (front := strings.trimLeading false s).
  set (back := strings.trimLeading true (strings.rev front)).
  split.
  - destruct (trimLeading_suffix true _ (strings.rev front) (le_n _)) as (p & Hp).
    fold back in Hp.
    assert (Hfront : front = (strings.rev back ++ strings.rev p)%string).
    { rewrite <- rev_append, <- Hp. symmetry. apply rev_involutive. }
    destruct back as [|c back'] eqn:Eb; [reflexivity|].
    rewrite <- (startsWithSpace_prefix (strings.rev (String c back')) (strings.rev p)).
    + rewrite <- Hfront. apply (trimLeading_clean false _ s (le_n _)).
    + cbn. now destruct (strings.rev back').
  - rewrite rev_involutive. apply (trimLeading_clean true _ _ (le_n _)).
Qed.

(** A filtered comment neither starts nor ends with ASCII white space. *)
Theorem filterCommentString_trimmed (c : string) (removeNewLines : bool) :
  startsWithSpace (filterCommentString g c removeNewLines) = false
  /\ endsWithSpace (filterCommentString g c removeNewLines) = false.
Proof.
  unfold filterCommentString. apply TrimSpace_trimmed.
Qed.

(** The node of a field, reference or not, has the filtered leading
    comment of the field as description when that is not empty, and no
    description otherwise. *)
Theorem field_description (field : Field) (schema : NamedSchema)
    (isValueProp : bool) (ns : NamedSchema) (log : list string) :
  namedSchemaForField g field schema isValueProp = Done (Some ns) log ->
  Description (Value ns)
  = (let description := filterCommentString g (FieldLeading field) true in
     if String.eqb description "" then None else Some description).
Proof.
  intros H.
  apply namedSchemaForField_Some in H as (raw & version & Hraw & _ & ->).
  apply schemaOrReferenceForField_unlabelled in Hraw as (_ & Hd & _ & _).
  unfold labelField. cbn [Value]. cbv zeta.
  set (behaved := if String.leb "07" version
                  then applyFieldBehavior (Behavior (FieldDesc field)) raw else raw).
  assert (Hb : Description behaved = None).
  { subst behaved. destruct (String.leb "07" version); [|exact Hd].
    now destruct (applyFieldBehavior_keeps (Behavior (FieldDesc field)) raw)
      as (_ & _ & ->). }
  destruct (String.eqb (filterCommentString g (FieldLeading field) true) "");
    destruct (Ref behaved); cbn; congruence.
Qed.

Lemma documentedMessages_names (message : Message) :
  List.map Name (depthFirstDocuments g message)
  = List.map messageDefinitionName (documentedMessages message).
Proof.
  induction message as [desc isMapEntry leading messages oneofs fields Hnested]
    using Message_induction.
  cbn [depthFirstDocuments documentedMessages]. rewrite !map_app. f_equal.
  - induction Hnested as [|m rest Hm _ IH]; [reflexivity|].
    cbn [flat_map]. now rewrite !map_app, Hm, IH.
  - destruct isMapEntry; [reflexivity|]. cbn [List.map].
    now rewrite ownDocument_Name.
Qed.

Lemma requestedDocuments_names (files : list File) :
  List.map Name (requestedDocuments g files)
  = List.map messageDefinitionName (requestedMessages files).
Proof.
  unfold requestedDocuments, requestedMessages.
  induction files as [|file rest IH]; [reflexivity|].
  cbn [flat_map]. rewrite !map_app, IH. f_equal.
  destruct (Generate file); [|reflexivity].
  induction (FileMessages file) as [|m more IHm]; [reflexivity|].
  cbn [flat_map]. now rewrite !map_app, documentedMessages_names, IHm.
Qed.

End Trimmed.

Lemma field_description_witness :
  Description (Value (MkNamedSchema "author"
                        (set_Description "The author of the book."
                           (set_Ref "Author.json" empty))))
  = (let description := filterCommentString json07 (FieldLeading authorField) true in
     if String.eqb description "" then None else Some description).
Proof.
  apply (field_description json07 authorField (bookDocument json07) false _ []).
  reflexivity.
Defined.

(** ** Annotations and local definitions *)

Section AnnotationsAndDefinitions.

Variable g : JSONSchemaGenerator.

Lemma applyFieldBehavior_never_false (v : list FieldBehavior) :
  forall s,
    ReadOnly s <> Some false -> WriteOnly s <> Some false ->
    ReadOnly (applyFieldBehavior v s) <> Some false
    /\ WriteOnly (applyFieldBehavior v s) <> Some false.
Proof.
  induction v as [|vv rest IH]; intros s Hr Hw; cbn [applyFieldBehavior];
    [now split|].
  apply IH; destruct vv; cbn; (assumption || discriminate).
Qed.

(** [readOnly] and [writeOnly] are never written as false: on the node of a
    field each is true or absent. *)
Theorem readOnly_never_false (field : Field) (schema : NamedSchema)
    (isValueProp : bool) (ns : NamedSchema) (log : list string) :
  namedSchemaForField g field schema isValueProp = Done (Some ns) log ->
  ReadOnly (Value ns) <> Some false /\ WriteOnly (Value ns) <> Some false.
Proof.
  intros H.
  apply namedSchemaForField_Some in H as (raw & version & Hraw & _ & ->).
  apply schemaOrReferenceForField_unlabelled in Hraw as (_ & _ & Hr & Hw).
  rewrite labelField_ReadOnly, labelField_WriteOnly.
  destruct (String.leb "07" version).
  - apply applyFieldBehavior_never_false; congruence.
  - rewrite Hr, Hw. split; discriminate.
Qed.

(** The definitions collection of a document is created on first use: the
    document of a message has none exactly when no member of its oneof
    groups has a mapped shape (in particular without oneof groups), and
    otherwise holds one definition per such member. *)
Theorem definitions_on_first_use (message : Message) :
  IsMapEntry message = false ->
  exists nested document log,
    buildSchemasFromMessages g [message] = Done (nested ++ [document]) log
    /\ (Definitions (Value document) = None
        <-> filter (mapped g document) (flat_map OneofFields (Oneofs message)) = [])
    /\ (forall definitions,
           Definitions (Value document) = Some definitions ->
           length definitions
           = length (filter (mapped g document)
                       (flat_map OneofFields (Oneofs message)))).
Proof.
  intros Hentry.
  destruct (buildSchemasFromMessages_loop g [message] []) as (log & E).
  exists (flat_map (depthFirstDocuments g) (Messages message)),
    (ownDocument g message), log.
  split.
  { unfold buildSchemasFromMessages. rewrite E.
    destruct message as [desc isMapEntry leading messages oneofs fields].
    cbn [IsMapEntry] in Hentry. subst isMapEntry.
    cbn [app flat_map depthFirstDocuments Messages]. now rewrite app_nil_r. }
  set (fresh := setupSchemaForMessage g (messageDefinitionName (Desc message))
                  (Leading message)).
  assert (Hmapped : forall member,
             mapped g (ownDocument g message) member = mapped g fresh member).
  { intros member. unfold mapped.
    now rewrite (memberProperty_header g (ownDocument g message) fresh member). }
  rewrite (filter_ext _ _ Hmapped).
  assert (Hdefs : Definitions (Value (ownDocument g message))
                  = registerDefinitions None
                      (flat_map (fun oneof => memberDefinitions g fresh (OneofFields oneof))
                         (Oneofs message))) by reflexivity.
  pose proof (memberDefinitions_all_names g fresh (Oneofs message)) as Hnames.
  apply (f_equal (@length string)) in Hnames. rewrite !length_map in Hnames.
  rewrite Hdefs.
  destruct (flat_map (fun oneof => memberDefinitions g fresh (OneofFields oneof))
              (Oneofs message)) as [|d defs];
    destruct (filter (mapped g fresh) (flat_map OneofFields (Oneofs message)));
    cbn in Hnames |- *; try discriminate.
  - split; [tauto | discriminate].
  - split; [split; discriminate|]. intros definitions [= <-]. cbn. exact Hnames.
Qed.

End AnnotationsAndDefinitions.

Lemma readOnly_never_false_witness :
  ReadOnly (Value (MkNamedSchema "id"
                     (set_Title "id"
                        (set_ReadOnly true
                           (set_Default (StringValue "")
                              (set_Type (TypeString "string") empty))))))
  <> Some false
  /\ WriteOnly (Value (MkNamedSchema "id"
                         (set_Title "id"
                            (set_ReadOnly true
                               (set_Default (StringValue "")
                                  (set_Type (TypeString "string") empty))))))
     <> Some false.
Proof.
  apply (readOnly_never_false json07 outputOnlyField (bookDocument json07) false _ []).
  reflexivity.
Defined.

Lemma definitions_on_first_use_witness :
  exists nested document log,
    buildSchemasFromMessages json07 [contactMessage] = Done (nested ++ [document]) log
    /\ (Definitions (Value document) = None
        <-> filter (mapped json07 document)
              (flat_map OneofFields (Oneofs contactMessage)) = [])
    /\ (forall definitions,
           Definitions (Value document) = Some definitions ->
           length definitions
           = length (filter (mapped json07 document)
                       (flat_map OneofFields (Oneofs contactMessage)))).
Proof.
  apply (definitions_on_first_use json07 contactMessage). reflexivity.
Defined.

(** ** Running the generator *)

Section Running.

Variable JSONString : Schema -> Outcome string.
Variable g : JSONSchemaGenerator.

(** The loop that writes the documents of one file. *)
Lemma write_loop (documents : list NamedSchema) :
  forall written,
    Forall (serializes JSONString) documents ->
    exists log,
      forRange
        (fun generated schema =>
           bytes <- JSONString (Value schema) ;;
           ret (generated ++ [MkGeneratedFile (Name schema ++ ".json") bytes]))
        documents written
      = Done (written ++ List.map (fileOf JSONString) documents) log.
Proof.
  induction documents as [|document more IH]; intros written Hall.
  - cbn. rewrite app_nil_r. eexists; reflexivity.
  - inversion Hall as [|d l (bytes & lb & Hbytes) Hmore]; subst.
    cbn [forRange]. rewrite Hbytes. cbn [bind ret].
    destruct (IH (written ++ [MkGeneratedFile (Name document ++ ".json") bytes]) Hmore)
      as (l2 & ->).
    cbn [List.map]. unfold fileOf at 2. rewrite Hbytes.
    rewrite <- app_assoc. eexists; reflexivity.
Qed.

Lemma write_loop_Panic (documents : list NamedSchema) :
  forall written,
    Exists (fun document => JSONString (Value document) = Panic) documents ->
    forRange
      (fun generated schema =>
         bytes <- JSONString (Value schema) ;;
         ret (generated ++ [MkGeneratedFile (Name schema ++ ".json") bytes]))
      documents written
    = Panic.
Proof.
  induction documents as [|document more IH]; intros written Hex;
    [inversion Hex|].
  cbn [forRange].
  destruct (JSONString (Value document)) as [bytes lb|] eqn:Hbytes; [|reflexivity].
  cbn [bind ret]. rewrite IH; [reflexivity|].
  inversion Hex as [d l Hd | d l Hl]; subst; [congruence | exact Hl].
Qed.

Lemma runFile_Done (file : File) (generated : list GeneratedFile) :
  Forall (serializes JSONString) (requestedDocuments g [file]) ->
  exists log,
    runFile JSONString g generated file
    = Done (generated ++ List.map (fileOf JSONString) (requestedDocuments g [file])) log.
Proof.
  unfold runFile, requestedDocuments. cbn [flat_map]. rewrite app_nil_r.
  destruct (Generate file); intros Hall.
  - destruct (buildSchemasFromMessages_loop g (FileMessages file) []) as (l1 & E).
    unfold buildSchemasFromMessages. rewrite E. cbn [app bind].
    destruct (write_loop _ generated Hall) as (l2 & ->). eexists; reflexivity.
  - cbn. rewrite app_nil_r. eexists; reflexivity.
Qed.

Lemma runFile_Panic (file : File) (generated : list GeneratedFile) :
  Exists (fun document => JSONString (Value document) = Panic)
    (requestedDocuments g [file]) ->
  runFile JSONString g generated file = Panic.
Proof.
  unfold runFile, requestedDocuments. cbn [flat_map]. rewrite app_nil_r.
  destruct (Generate file); intros Hex; [|inversion Hex].
  destruct (buildSchemasFromMessages_loop g (FileMessages file) []) as (l1 & E).
  unfold buildSchemasFromMessages. rewrite E. cbn [app bind].
  now rewrite (write_loop_Panic _ generated Hex).
Qed.

Lemma requestedDocuments_cons (file : File) (rest : list File) :
  requestedDocuments g (file :: rest)
  = requestedDocuments g [file] ++ requestedDocuments g rest.
Proof.
  unfold requestedDocuments. cbn [flat_map]. now rewrite app_nil_r.
Qed.

Lemma run_loop (files : list File) :
  forall generated,
    Forall (serializes JSONString) (requestedDocuments g files) ->
    exists log,
      forRange (runFile JSONString g) files generated
      = Done (generated ++ List.map (fileOf JSONString) (requestedDocuments g files)) log.
Proof.
  induction files as [|file rest IH]; intros generated Hall.
  - cbn. rewrite app_nil_r. eexists; reflexivity.
  - rewrite requestedDocuments_cons in Hall |- *.
    apply Forall_app in Hall as [Hfile Hrest].
    cbn [forRange].
    destruct (runFile_Done file generated Hfile) as (l1 & ->). cbn [bind].
    destruct (IH (generated
                  ++ List.map (fileOf JSONString) (requestedDocuments g [file])) Hrest)
      as (l2 & ->).
    rewrite map_app, app_assoc. eexists; reflexivity.
Qed.

Lemma run_loop_Panic (files : list File) :
  forall generated,
    Exists (fun document => JSONString (Value document) = Panic)
      (requestedDocuments g files) ->
    forRange (runFile JSONString g) files generated = Panic.
Proof.
  induction files as [|file rest IH]; intros generated Hex; [inversion Hex|].
  rewrite requestedDocuments_cons in Hex. apply Exists_app in Hex.
  cbn [forRange].
  destruct (runFile JSONString g generated file) as [generated' l1|] eqn:Efile;
    [|reflexivity].
  cbn [bind]. destruct Hex as [Hfile | Hrest].
  - now rewrite (runFile_Panic file generated Hfile) in Efile.
  - now rewrite (IH generated' Hrest).
Qed.

(** [Run] and the serializer.  When the serializer returns for every
    document of the files marked for generation, [Run] returns no error and
    has asked for one file per such document, in the order of the files and
    of the builder, named by the document and [.json] and holding its
    serialization; files not marked are passed over.  When the serializer
    panics on one of these documents, [Run] panics. *)
Theorem Run_files (files : list File) :
  (Forall (serializes JSONString) (requestedDocuments g files) ->
   exists log,
     Run JSONString g files
     = Done (List.map (fileOf JSONString) (requestedDocuments g files), None) log)
  /\ (Exists (fun document => JSONString (Value document) = Panic)
        (requestedDocuments g files) ->
      Run JSONString g files = Panic).
Proof.
  unfold Run. split.
  - intros Hall. destruct (run_loop files [] Hall) as (log & ->).
    cbn. eexists; reflexivity.
  - intros Hex. now rewrite (run_loop_Panic files [] Hex).
Qed.

(** When the serializer returns for every document asked for, the files
    [Run] asks for are named, in order, by the document names of the
    messages of the files marked for generation, nested messages before the
    message that holds them and map entries left out, each followed by
    [.json]: one file per such message, and none for a oneof
    definition. *)
Theorem Run_file_names (files : list File) :
  Forall (serializes JSONString) (requestedDocuments g files) ->
  exists generated log,
    Run JSONString g files = Done (generated, None) log
    /\ List.map filename generated
       = List.map (fun desc => (messageDefinitionName desc ++ ".json")%string)
           (requestedMessages files).
Proof.
  intros Hall. unfold Run.
  destruct (run_loop files [] Hall) as (log & ->).
  eexists; eexists. split; [reflexivity|]. cbn [app].
  rewrite map_map.
  rewrite <- (map_map messageDefinitionName (fun name => (name ++ ".json")%string)).
  rewrite <- (requestedDocuments_names g), map_map. reflexivity.
Qed.

End Running.

(** The sample request: the file marked for generation yields [Author] and
    [Book]; the file with the repeated group is passed over, and when it is
    marked too the stand-in serializer panics on its document. *)
Lemma Run_files_witness :
  (exists log,
      Run sampleJSONString json07 sampleFiles
      = Done (List.map (fileOf sampleJSONString)
                (requestedDocuments json07 sampleFiles), None) log)
  /\ Run sampleJSONString json07 [MkFile true [holderMessage]] = Panic.
Proof.
  split.
  - apply (Run_files sampleJSONString json07 sampleFiles).
    unfold serializes.
    repeat constructor; eexists; eexists; vm_compute; reflexivity.
  - apply (Run_files sampleJSONString json07 [MkFile true [holderMessage]]).
    constructor. vm_compute. reflexivity.
Defined.

Lemma Run_file_names_witness :
  exists generated log,
    Run sampleJSONString json07 sampleFiles = Done (generated, None) log
    /\ List.map filename generated
       = List.map (fun desc => (messageDefinitionName desc ++ ".json")%string)
           (requestedMessages sampleFiles).
Proof.
  apply (Run_file_names sampleJSONString json07 sampleFiles).
  unfold serializes.
  repeat constructor; eexists; eexists; vm_compute; reflexivity.
Defined.

Example Run_sample_names :
  List.map (fun desc => (messageDefinitionName desc ++ ".json")%string)
    (requestedMessages sampleFiles)
  = ["Author.json"; "Book.json"]%string.
Proof. reflexivity. Qed.
